(** * First-login bootstrap tokens: the encode/decode transform

    A shallow embedding of [generate_firstlogin_codes.py] and
    [verify_firstlogin_codes.py], and the properties of the transform
    they share.

    Conventions of the embedding:
    - a Python [int] is a [Z];
    - a Python [str] is the list of its Unicode code points, each an [N];
      [ord] and [chr] convert between code points and integers;
    - a Python [float] is a binary64 value of the Standard Library's
      [SpecFloat] (precision 53, [emax] 1024);
    - an exception is a value of [exn], and a computation that may raise
      returns a [result];
    - of the console only the failure of a [print] is kept, and of the file
      system what a run finds at the output path and what it leaves
      there. *)

From Stdlib Require Import String Ascii DecimalString.
From Stdlib Require Import ZArith NArith List Bool Lia.
From Stdlib Require Import Floats.SpecFloat.
Import ListNotations.

Local Open Scope Z_scope.

(** ** Exceptions and the error monad *)

(** What a [ValueError] of these programs was raised for. *)
Variant value_error : Type :=
| required_arguments        (* "Audience ID and PIN are required" *)
| pin_not_four_digits       (* "PIN must be exactly 4 digits" *)
| invalid_level (level : Z) (* "Invalid level: ... Must be 1, 2, or 3" *)
| invalid_literal (d : N)   (* int(d): invalid literal for int() with base 10 *)
| chr_out_of_range.         (* chr() arg not in range(0x110000) *)

(** [UnicodeEncodeError] and [JSONDecodeError] are subclasses of
    [ValueError] in Python; no handler of these programs tells the classes
    apart (the only one catches [Exception]), and they are kept apart here. *)
Variant exn : Type :=
| ValueError (why : value_error)
| ZeroDivisionError
| OverflowError
| IndexError
| KeyError
| UnicodeEncodeError (* print: a character the console cannot encode *)
| TypeError          (* item assignment on a value that is not a dict *)
| JSONDecodeError    (* json.load on a text that is not JSON *)
| OSError.           (* open on a path that cannot be opened *)

Inductive result (A : Type) : Type :=
| Return (a : A)
| Raise (e : exn).

Arguments Return {A} a.
Arguments Raise {A} e.

Definition bind {A B : Type} (m : result A) (k : A -> result B) : result B :=
  match m with
  | Return a => k a
  | Raise e => Raise e
  end.

Declare Scope py_scope.
Delimit Scope py_scope with py.
Notation "x <- m ;; k" := (bind m (fun x => k))
  (at level 61, m at next level, right associativity) : py_scope.
Notation "m ;; k" := (bind m (fun _ => k))
  (at level 61, right associativity) : py_scope.
Local Open Scope py_scope.

(** A list comprehension [[f(x) for x in xs]]: elements are evaluated left
    to right and the first exception aborts the comprehension. *)
Fixpoint comprehension {A B : Type} (f : A -> result B) (xs : list A) : result (list B) :=
  match xs with
  | [] => Return []
  | x :: rest =>
      y <- f x ;;
      ys <- comprehension f rest ;;
      Return (y :: ys)
  end.

(** ** Strings *)

Definition codepoint : Type := N.
Definition str : Type := list codepoint.

(** Every character of a Python string is a code point below [0x110000]. *)
Definition valid_codepoint (c : codepoint) : Prop := (c < 0x110000)%N.
Definition valid_str (s : str) : Prop := Forall valid_codepoint s.

Definition ord (c : codepoint) : Z := Z.of_N c.

Definition chr (i : Z) : result codepoint :=
  if (0 <=? i) && (i <? 0x110000) then Return (Z.to_N i)
  else Raise (ValueError chr_out_of_range).

(** A string literal of the source, as code points. *)
Fixpoint literal (s : string) : str :=
  match s with
  | EmptyString => []
  | String a rest => N_of_ascii a :: literal rest
  end.

(** [len(s)]. *)
Definition len {A : Type} (s : list A) : Z := Z.of_nat (length s).

(** [a % b] on integers: the remainder has the sign of [b], as [Z.modulo]. *)
Definition py_mod (a b : Z) : result Z :=
  if b =? 0 then Raise ZeroDivisionError else Return (a mod b).

(** [s[i]]: a negative index counts from the end. *)
Definition getitem {A : Type} (s : list A) (i : Z) : result A :=
  let j := if i <? 0 then i + len s else i in
  if j <? 0 then Raise IndexError
  else match nth_error s (Z.to_nat j) with
       | Some x => Return x
       | None => Raise IndexError
       end.

(** [enumerate(s)]. *)
Fixpoint enumerate_from {A : Type} (start : Z) (s : list A) : list (Z * A) :=
  match s with
  | [] => []
  | x :: rest => (start, x) :: enumerate_from (start + 1) rest
  end.

Definition enumerate {A : Type} (s : list A) : list (Z * A) := enumerate_from 0 s.

(** [s.zfill(width)]: pads with ASCII zeros on the left, after a leading
    sign character if there is one; a string already [width] long or longer
    is returned as it is. *)
Definition zfill (width : nat) (s : str) : str :=
  if (width <=? length s)%nat then s
  else
    let fill := repeat 48%N (width - length s) in
    match s with
    | c :: rest =>
        if (c =? 43)%N || (c =? 45)%N then c :: fill ++ rest else fill ++ s
    | [] => fill
    end.

(** [s[-n:]] for [n > 0]: the last [n] characters, or all of [s] when it is
    shorter. *)
Definition last_chars (n : nat) (s : str) : str := skipn (length s - n) s.

(** ** Decimal digits

    [int(d)] on a one-character string accepts exactly the characters with
    a decimal digit value.  For ASCII these are ['0'..'9']; above ASCII the
    value comes from the Unicode character database, which is not part of
    the programs and is a parameter of the model. *)

Variant decimal_digit : Type := D0 | D1 | D2 | D3 | D4 | D5 | D6 | D7 | D8 | D9.

Definition digit_value (v : decimal_digit) : Z :=
  match v with
  | D0 => 0 | D1 => 1 | D2 => 2 | D3 => 3 | D4 => 4
  | D5 => 5 | D6 => 6 | D7 => 7 | D8 => 8 | D9 => 9
  end.

Definition ascii_decimal (c : codepoint) : option decimal_digit :=
  match c with
  | 48%N => Some D0 | 49%N => Some D1 | 50%N => Some D2 | 51%N => Some D3
  | 52%N => Some D4 | 53%N => Some D5 | 54%N => Some D6 | 55%N => Some D7
  | 56%N => Some D8 | 57%N => Some D9
  | _ => None
  end.

(** The table with no decimal digit above ASCII. *)
Definition ascii_only : codepoint -> option decimal_digit := fun _ => None.

(** ** Floating point *)

Definition prec : Z := 53.
Definition emax : Z := 1024.
Definition float : Type := spec_float.

(** The float of an integer that binary64 represents exactly. *)
Definition float_of_int (z : Z) : float := binary_normalize prec emax z 0 false.

(** [n / d] on integers: true division.  CPython rounds the exact quotient
    of the two integers, whatever their size, to the nearest binary64 value
    (ties to even); a zero divisor raises [ZeroDivisionError] and a quotient
    that rounds beyond the largest float raises [OverflowError].  Here the
    two integers are handed to [SFdiv] as mantissas at exponent 0: [SFdiv]
    scales the dividend until the integer quotient has at least 53 bits and
    rounds it to nearest even from the remainder, and returns an infinity
    on overflow. *)
Definition true_divide (n d : Z) : result float :=
  match d with
  | Z0 => Raise ZeroDivisionError
  | _ =>
      match n with
      | Z0 => Return (S754_zero (d <? 0))
      | _ =>
          match SFdiv prec emax
                  (S754_finite (n <? 0) (Z.to_pos (Z.abs n)) 0)
                  (S754_finite (d <? 0) (Z.to_pos (Z.abs d)) 0) with
          | S754_infinity _ => Raise OverflowError
          | q => Return q
          end
      end
  end.

(** [x.is_integer()]. *)
Definition is_integer (x : float) : bool :=
  match x with
  | S754_zero _ => true
  | S754_finite _ m e =>
      if 0 <=? e then true else Zpos m mod 2 ^ (- e) =? 0
  | S754_infinity _ | S754_nan => false
  end.

(** [x < k] and [x > k] for a float [x] and an integer [k] that binary64
    represents exactly (here 32 and 126): the comparison of [x] with the
    float of [k]. *)
Definition float_lt_int (x : float) (k : Z) : bool := SFltb x (float_of_int k).
Definition float_gt_int (x : float) (k : Z) : bool := SFltb (float_of_int k) x.

(** The test of line 47 of the verifier:
    [not x.is_integer() or x < 32 or x > 126]. *)
Definition invalid_character (char_ascii : float) : bool :=
  negb (is_integer char_ascii)
  || float_lt_int char_ascii 32
  || float_gt_int char_ascii 126.

(** [int(x)]: truncation towards zero (only called on finite floats). *)
Definition int_of_float (x : float) : Z :=
  match x with
  | S754_finite s m e =>
      let a := if 0 <=? e then Zpos m * 2 ^ e else Zpos m / 2 ^ (- e) in
      if s then - a else a
  | _ => 0
  end.

(** ** Configuration *)

Definition BASE_OFFSET : Z := 13.

(** ** The per-position key

    Lines 86-93 of the generator and lines 35-42 of the verifier are the
    same code: from the position [i] they select the audience character
    and the PIN digit, and return the two factors [aud_ascii] and
    [pin_multiplier]. *)
Definition position_key (aud_id : str) (pin_digits : list Z) (i : Z) : result (Z * Z) :=
  let aud_length := len aud_id in
  let aud_pos := BASE_OFFSET + i in
  wrapped_index <- py_mod aud_pos aud_length ;;
  aud_char <- getitem aud_id wrapped_index ;;
  let aud_ascii := ord aud_char in
  pin_index <- py_mod i (len pin_digits) ;;
  pin_digit <- getitem pin_digits pin_index ;;
  let pin_multiplier := if pin_digit =? 0 then 10 else pin_digit in
  Return (aud_ascii, pin_multiplier).

(** The [for] loop of [encode_payload]; [encoded_array] is the list built
    so far. *)
Fixpoint encode_loop (aud_id : str) (pin_digits : list Z)
    (items : list (Z * codepoint)) (encoded_array : list Z) : result (list Z) :=
  match items with
  | [] => Return encoded_array
  | (i, char) :: rest =>
      let char_ascii := ord char in
      key <- position_key aud_id pin_digits i ;;
      let (aud_ascii, pin_multiplier) := key in
      let encoded_value := char_ascii * aud_ascii * pin_multiplier in
      encode_loop aud_id pin_digits rest (encoded_array ++ [encoded_value])
  end.

(** What [decode_payload] returns.  In the source both are strings:
    [Joined s] is [''.join(decoded_chars)], whose characters all lie in
    [32,126]; [DECODE_ERROR i char_ascii] is the message
    "<U+274C> DECODE ERROR at position {i}: Invalid character {char_ascii}",
    which starts with the code point U+274C and so is never equal to a
    joined string. *)
Variant decoded : Type :=
| Joined (s : str)
| DECODE_ERROR (i : Z) (char_ascii : float).

(** The [for] loop of [decode_payload]; [decoded_chars] is the list built
    so far. *)
Fixpoint decode_loop (aud_id : str) (pin_digits : list Z)
    (items : list (Z * Z)) (decoded_chars : str) : result decoded :=
  match items with
  | [] => Return (Joined decoded_chars)
  | (i, encoded_value) :: rest =>
      key <- position_key aud_id pin_digits i ;;
      let (aud_ascii, pin_multiplier) := key in
      char_ascii <- true_divide encoded_value (aud_ascii * pin_multiplier) ;;
      if invalid_character char_ascii
      then Return (DECODE_ERROR i char_ascii)
      else
        c <- chr (int_of_float char_ascii) ;;
        decode_loop aud_id pin_digits rest (decoded_chars ++ [c])
  end.

(** [not s] on a string or list. *)
Definition is_empty {A : Type} (s : list A) : bool :=
  match s with [] => true | _ => false end.

(** [f"{level}"] for an integer. *)
Definition str_of_int (level : Z) : str :=
  literal (NilZero.string_of_int (Z.to_int level)).

(** The three dictionaries of the generator, keyed by level. *)
Definition WORKER_URLS (level : Z) : option str :=
  match level with
  | 3 => Some (literal "https://z3c9h1-qs7f5l2p8.johan-351.workers.dev")
  | 2 => Some (literal "https://m4v8k2-rb6n0t3y9.johan-351.workers.dev")
  | 1 => Some (literal "https://h7p3w5-xd1q6e4z8.johan-351.workers.dev")
  | _ => None
  end.

Definition BOOTSTRAP_PINS (level : Z) : option str :=
  match level with
  | 3 => Some (literal "5329")
  | 2 => Some (literal "5229")
  | 1 => Some (literal "5129")
  | _ => None
  end.

Definition TIER_NAMES (level : Z) : option str :=
  match level with
  | 3 => Some (literal "tier3")
  | 2 => Some (literal "tier2")
  | 1 => Some (literal "tier1")
  | _ => None
  end.

(** ** Console output

    [print(s)] encodes [s] for the standard output before it writes
    anything.  The console is taken to encode as UTF-8 with the [strict]
    error handler, the default of Python under a UTF-8 locale and the
    setting in which the emoji these scripts print can be written at all:
    every code point is encoded except the surrogates U+D800 to U+DFFF, on
    which the codec raises [UnicodeEncodeError].  A string read from the
    command line holds such a code point for each byte of an argument that
    is not UTF-8.  What has been printed is not part of the model, only
    whether a [print] returns. *)

Definition is_surrogate (c : codepoint) : bool :=
  ((0xD800 <=? c) && (c <=? 0xDFFF))%N.

Definition print (s : str) : result unit :=
  if existsb is_surrogate s then Raise UnicodeEncodeError else Return tt.

(** ['FULL' if level == 3 else 'RESTRICTED' if level == 2 else 'BASIC']
    (generator, line 125). *)
Definition level_label (level : Z) : str :=
  if level =? 3 then literal "FULL"
  else if level =? 2 then literal "RESTRICTED"
  else literal "BASIC".

(** [table[key]] on a dictionary. *)
Definition lookup {A : Type} (table : Z -> option A) (key : Z) : result A :=
  match table key with
  | Some x => Return x
  | None => Raise KeyError
  end.

(** [f"firstlogin_level{level}_{aud_id}"] (generator, line 136). *)
Definition key_name (level : Z) (aud_id : str) : str :=
  literal "firstlogin_level" ++ str_of_int level ++ literal "_" ++ aud_id.

(** The verifier's tiers and its key name (line 64). *)
Variant tier : Type := FULL | RESTRICTED | BASIC.

Definition verifier_key_name (t : tier) (aud_id : str) : str :=
  literal "firstlogin_level"
  ++ match t with
     | FULL => literal "3"
     | RESTRICTED => literal "2"
     | BASIC => literal "1"
     end
  ++ literal "_" ++ aud_id.

Section Programs.

(** Decimal digit value of the code points above ASCII. *)
Variable unicode_decimal : codepoint -> option decimal_digit.

(** [int(d)] for a one-character string [d]. *)
Definition int_of_char (d : codepoint) : result Z :=
  match (if (d <? 128)%N then ascii_decimal d else unicode_decimal d) with
  | Some v => Return (digit_value v)
  | None => Raise (ValueError (invalid_literal d))
  end.

(** [[int(d) for d in pin.zfill(4)[-4:]]]. *)
Definition pin_digits_of (pin : str) : result (list Z) :=
  let pin_str := last_chars 4 (zfill 4 pin) in
  comprehension int_of_char pin_str.

(** [encode_payload] (generator, lines 53-99). *)
Definition encode_payload (payload aud_id pin : str) : result (list Z) :=
  if is_empty aud_id || is_empty pin
  then Raise (ValueError required_arguments)
  else
    pin_digits <- pin_digits_of pin ;;
    if negb (len pin_digits =? 4)
    then Raise (ValueError pin_not_four_digits)
    else encode_loop aud_id pin_digits (enumerate payload) [].

(** [decode_payload] (verifier, lines 25-52). *)
Definition decode_payload (encoded_array : list Z) (aud_id pin : str) : result decoded :=
  pin_digits <- pin_digits_of pin ;;
  decode_loop aud_id pin_digits (enumerate encoded_array) [].

(** [generate_firstlogin_array] (generator, lines 102-141), with the
    [print] calls of lines 124-130 and 138-139: line 130 prints the first
    and the last 20 characters of the audience id before the encoding, and
    line 139 prints the whole key, which ends with the audience id, after
    it.  The first line printed starts with a newline and U+1F4E6. *)
Definition generate_firstlogin_array (level : Z) (aud_id : str) : result (str * list Z) :=
  match WORKER_URLS level with
  | None => Raise (ValueError (invalid_level level))
  | Some worker_url =>
      bootstrap_pin <- lookup BOOTSTRAP_PINS level ;;
      tier_name <- lookup TIER_NAMES level ;;
      let payload :=
        literal "MEAM " ++ worker_url ++ literal " " ++ tier_name
        ++ literal "@meam-firstlogin.internal" in
      print ([10%N; 0x1F4E6%N] ++ literal " Generating first-login array:") ;;
      print (literal "   Level: " ++ str_of_int level
             ++ literal " (" ++ level_label level ++ literal ")") ;;
      print (literal "   Worker URL: " ++ worker_url) ;;
      print (literal "   Bootstrap PIN: " ++ bootstrap_pin) ;;
      print (literal "   Payload: " ++ payload) ;;
      print (literal "   Payload length: " ++ str_of_int (len payload)
             ++ literal " characters") ;;
      print (literal "   Audience ID: " ++ firstn 20 aud_id
             ++ literal "..." ++ last_chars 20 aud_id) ;;
      encoded_array <- encode_payload payload aud_id bootstrap_pin ;;
      let key := key_name level aud_id in
      print (literal "   Encoded array length: " ++ str_of_int (len encoded_array)
             ++ literal " values") ;;
      print (literal "   Key name: " ++ key) ;;
      Return (key, encoded_array)
  end.

(** The parsed command line of [main], and how a run ends: the process
    exits with a status, or it previews the array, or it stores the array
    under the key in the output file. *)
Record arguments : Type := {
  arg_level : Z;
  arg_aud : str;
  arg_output : str;
  arg_dry_run : bool
}.

Variant outcome : Type :=
| SystemExit (status : Z)
| DryRun (key : str) (encoded_array : list Z)
| Updated (output : str) (key : str) (encoded_array : list Z).

(** [main] (generator, lines 219-250), from the validation of the audience
    id up to the call of [update_somenumbers_json]: [Updated] is that call,
    which [main_effect] below carries out on the file.  Whatever
    [generate_firstlogin_array] raises, an exception of one of its [print]
    calls included, is caught at line 246 and ends the run with status 1.
    The texts [main] itself prints on these paths are literals with emoji,
    integers and, at line 247, the message of the exception, which is
    ASCII: on the console above they are always written, and they are left
    out. *)
Definition main (args : arguments) : outcome :=
  if is_empty (arg_aud args) || (len (arg_aud args) <? 10)
  then SystemExit 1
  else
    match generate_firstlogin_array (arg_level args) (arg_aud args) with
    | Raise _ => SystemExit 1
    | Return (key, encoded_array) =>
        if arg_dry_run args then DryRun key encoded_array
        else Updated (arg_output args) key encoded_array
    end.

End Programs.

(** ** Vocabulary of the properties *)

(** Printable ASCII: every code point in [32,126]. *)
Definition printable (s : str) : Prop :=
  Forall (fun c : codepoint => (32 <= c <= 126)%N) s.

(** No character with code point zero. *)
Definition no_nul (s : str) : Prop :=
  Forall (fun c : codepoint => c <> 0%N) s.

(** The two factors [position_key] returns at position [i], as total
    functions of the key material. *)
Definition aud_ascii_at (aud_id : str) (i : Z) : Z :=
  ord (nth (Z.to_nat ((BASE_OFFSET + i) mod len aud_id)) aud_id 0%N).

Definition pin_multiplier_at (pin_digits : list Z) (i : Z) : Z :=
  let pin_digit := nth (Z.to_nat (i mod len pin_digits)) pin_digits 0 in
  if pin_digit =? 0 then 10 else pin_digit.

(** The divisor of position [i]: [aud_ascii * pin_multiplier]. *)
Definition divisor_at (aud_id : str) (pin_digits : list Z) (i : Z) : Z :=
  aud_ascii_at aud_id i * pin_multiplier_at pin_digits i.

(** The products [char_ascii * aud_ascii * pin_multiplier] of the characters
    of [payload], the first one at position [start]. *)
Fixpoint products (aud_id : str) (pin_digits : list Z) (start : Z) (payload : str) : list Z :=
  match payload with
  | [] => []
  | char :: rest =>
      ord char * aud_ascii_at aud_id start * pin_multiplier_at pin_digits start
      :: products aud_id pin_digits (start + 1) rest
  end.

(** The quotient of [encoded_value] at position [i] is an exact integer in
    [32,126]. *)
Definition exact_character (aud_id : str) (pin_digits : list Z) (i encoded_value : Z) : Prop :=
  exists char_code : Z,
    32 <= char_code <= 126 /\
    encoded_value = char_code * divisor_at aud_id pin_digits i.

(** Four digits, each between 0 and 9. *)
Definition decimal_digits (pin_digits : list Z) : Prop :=
  length pin_digits = 4%nat /\ Forall (fun d => 0 <= d <= 9) pin_digits.

(** The array with the element at position [j] replaced by [x]. *)
Definition mutate (j : nat) (x : Z) (encoded_array : list Z) : list Z :=
  firstn j encoded_array ++ x :: skipn (S j) encoded_array.

(** The PIN normalisation in the words of the specification: pad with
    zeros on the left to four characters and keep the last four. *)
Definition left_pad_last4 (pin : str) : str :=
  last_chars 4 (repeat 48%N (4 - length pin) ++ pin).

(** The decimal digits of ASCII, ['0'] to ['9'], and their values. *)
Definition ascii_digit (c : codepoint) : Prop := (48 <= c <= 57)%N.
Definition ascii_digit_value (c : codepoint) : Z := Z.of_N c - 48.

(** A character with a decimal digit value: a decimal digit of ASCII, or a
    character above ASCII to which the table gives a value. *)
Definition decimal_character (unicode_decimal : codepoint -> option decimal_digit)
    (c : codepoint) : Prop :=
  ascii_digit c \/ ((128 <= c)%N /\ unicode_decimal c <> None).

(** No surrogate code point: a string the console can encode. *)
Definition no_surrogate (s : str) : Prop :=
  Forall (fun c : codepoint => is_surrogate c = false) s.

(** What the rounding gives on a character code [c] scaled to 53 or 54
    bits, and what the validity test and [int] give on its float. *)
Definition character_facts (c : Z) : Prop :=
  6 <= Zdigits2 c <= 7
  /\ binary_round_aux prec emax false
       (c * 2 ^ (53 - (Zdigits2 c - 1))) (Zdigits2 c - 1 - 53) loc_Exact
     = float_of_int c
  /\ binary_round_aux prec emax false
       (c * 2 ^ (53 - Zdigits2 c)) (Zdigits2 c - 53) loc_Exact
     = float_of_int c
  /\ invalid_character (float_of_int c) = false
  /\ int_of_float (float_of_int c) = c.

(** ** The store

    [somenumbers.json] holds one JSON object whose values are arrays of
    integers.  A Python [dict] keeps its keys in insertion order and holds
    each key once: it is an association list, searched and updated at the
    first entry of the key. *)

Definition dict (V : Type) : Type := list (str * V).

(** [s == t] on strings. *)
Fixpoint str_eqb (s t : str) : bool :=
  match s, t with
  | [], [] => true
  | c :: s', d :: t' => (c =? d)%N && str_eqb s' t'
  | _, _ => false
  end.

(** [data.get(key)]: the value of [key], if [key in data]. *)
Fixpoint dict_get {V : Type} (data : dict V) (key : str) : option V :=
  match data with
  | [] => None
  | (k, v) :: rest => if str_eqb k key then Some v else dict_get rest key
  end.

(** [data[key] = value]: an existing key keeps its place, a new key goes
    last. *)
Fixpoint dict_set {V : Type} (data : dict V) (key : str) (value : V) : dict V :=
  match data with
  | [] => [(key, value)]
  | (k, v) :: rest =>
      if str_eqb k key then (k, value) :: rest
      else (k, v) :: dict_set rest key value
  end.

(** The keys of a dictionary, and the invariant that each occurs once. *)
Definition keys {V : Type} (data : dict V) : list str := map fst data.
Definition unique_keys {V : Type} (data : dict V) : Prop := NoDup (keys data).

Definition document : Type := dict (list Z).

(** [update_somenumbers_json], without its console output; [file] is the
    content of the file at [somenumbers_path], [None] when the file does
    not exist, and the result is the content written back. *)
Definition update_somenumbers_json (key : str) (encoded_array : list Z)
    (file : option document) : document :=
  let data :=
    match file with
    | Some loaded => loaded
    | None => [(literal "somenumbers", [])]
    end in
  dict_set data key encoded_array.

(** What a run of the generator finds at the output path: no file; a file
    with a JSON object; a file with JSON of another type (an array, a
    string, a number, [true], [false] or [null]); a file whose text is not
    JSON; or a path on which [open] raises, for reading or for writing (a
    directory, a missing directory, no permission, a name the file system
    does not accept).  The objects of the model are those whose values are
    arrays of integers, as the generator writes them. *)
Variant file_content : Type :=
| Missing
| Object (data : document)
| NotAnObject
| NotJSON
| Unavailable.

(** Lines 154-161, up to the assignment [data[key_name] = encoded_array]:
    what is loaded from the file, or the exception raised before anything
    is written.  On JSON that is not an object [json.load] returns and the
    assignment raises [TypeError]. *)
Definition load (file : file_content) : result (option document) :=
  match file with
  | Missing => Return None
  | Object data => Return (Some data)
  | NotAnObject => Raise TypeError
  | NotJSON => Raise JSONDecodeError
  | Unavailable => Raise OSError
  end.

(** ** The verifier's script *)

(** The verifier's PINs and the level it puts in the key of a tier. *)
Definition verifier_BOOTSTRAP_PINS (t : tier) : str :=
  match t with
  | FULL => literal "5329"
  | RESTRICTED => literal "5229"
  | BASIC => literal "5129"
  end.

Definition level_of_tier (t : tier) : Z :=
  match t with FULL => 3 | RESTRICTED => 2 | BASIC => 1 end.

(** [f"tier{...}"] of lines 98-99. *)
Definition expected_tier (t : tier) : str :=
  literal "tier"
  ++ match t with
     | FULL => literal "3"
     | RESTRICTED => literal "2"
     | BASIC => literal "1"
     end.

Definition AUDIENCE_IDS (t : tier) : str :=
  match t with
  | FULL => literal "2a1cae831a8b85fb7847b7aeedf2075cbe37316002f31ef308ebd5d4e5094e0d"
  | RESTRICTED => literal "edc14b0fbb1c63640439b0c948515ddb63d15f6d2b2a7498c1d4f087a4706366"
  | BASIC => literal "27fbdc72fab0dcccf1ceba4aafe2d72f07e2167ae9a6ee9f67012222672c8ede"
  end.

(** [s.startswith(prefix)]. *)
Fixpoint startswith (s prefix : str) : bool :=
  match prefix, s with
  | [], _ => true
  | p :: prefix', c :: s' => (c =? p)%N && startswith s' prefix'
  | _ :: _, [] => false
  end.

(** The ASCII characters [str.split] takes for whitespace: tab to carriage
    return, the four separators 28 to 31, and the space. *)
Definition ascii_space (c : codepoint) : bool :=
  ((9 <=? c) && (c <=? 13))%N || ((28 <=? c) && (c <=? 32))%N.

(** What the verifier reports on a tier: the key is missing; or the decoded
    text does not start with "MEAM https://"; or it does and has fewer than
    three fields, and nothing more is printed; or the three checks of lines
    92-102, with the marks of the preamble and of the email marker. *)
Variant report : Type :=
| KEY_NOT_FOUND
| VERIFICATION_FAILED (decoded_payload : decoded)
| NO_VERIFICATION (decoded_payload : str)
| VERIFICATION (preamble_ok : bool) (worker_url email_marker : str) (email_ok : bool).

Section Verifier.

(** Decimal digit value and whitespace of the code points above ASCII. *)
Variable unicode_decimal : codepoint -> option decimal_digit.
Variable unicode_space : codepoint -> bool.

Definition isspace (c : codepoint) : bool :=
  if (c <? 128)%N then ascii_space c else unicode_space c.

(** [s.split()]: the maximal runs of characters that are not whitespace;
    [word] is the run being read. *)
Fixpoint split_loop (s : str) (word : str) : list str :=
  match s with
  | [] => if is_empty word then [] else [word]
  | c :: rest =>
      if isspace c
      then if is_empty word then split_loop rest []
           else word :: split_loop rest []
      else split_loop rest (word ++ [c])
  end.

Definition split (s : str) : list str := split_loop s [].

(** Lines 85-104 of the verifier, on what [decode_payload] returned.  The
    error message starts with U+274C, so it does not start with "MEAM". *)
Definition verify_format (t : tier) (decoded_payload : decoded) : report :=
  match decoded_payload with
  | DECODE_ERROR _ _ => VERIFICATION_FAILED decoded_payload
  | Joined s =>
      if startswith s (literal "MEAM https://")
      then
        match split s with
        | preamble :: worker_url :: email_marker :: _ =>
            VERIFICATION
              (str_eqb preamble (literal "MEAM"))
              worker_url email_marker
              (str_eqb email_marker
                 (expected_tier t ++ literal "@meam-firstlogin.internal"))
        | _ => NO_VERIFICATION s
        end
      else VERIFICATION_FAILED decoded_payload
  end.

(** The body of the loop of lines 62-106, for one tier and its audience
    id, on the loaded document. *)
Definition verify_tier (data : document) (t : tier) (aud_id : str) : result report :=
  let pin := verifier_BOOTSTRAP_PINS t in
  let key := verifier_key_name t aud_id in
  match dict_get data key with
  | Some encoded_array =>
      decoded_payload <- decode_payload unicode_decimal encoded_array aud_id pin ;;
      Return (verify_format t decoded_payload)
  | None => Return KEY_NOT_FOUND
  end.

(** The loop over the three tiers; an exception of [decode_payload] ends
    the script. *)
Definition verify_script (data : document) : result (list report) :=
  comprehension (fun t => verify_tier data t (AUDIENCE_IDS t))
    [FULL; RESTRICTED; BASIC].

(** A whole run of [main], with its effect on the file at the output
    path: how the run ends and what the file holds afterwards.  Only the
    run that reaches [update_somenumbers_json] touches the file; an
    exception before the write of line 164 ends the run with status 1 and
    leaves the file as it was.  After the write, lines 167 and 239-240
    print the output path: [str(somenumbers_path)] and [args.output] hold
    the same surrogates, so these calls raise together, and the run then
    ends with status 1 on a file that has been written.  The other texts
    printed after the write are literals, integers and the key, which line
    139 has printed already. *)
Definition main_effect (args : arguments) (file : file_content)
    : outcome * file_content :=
  match main unicode_decimal args with
  | Updated output key encoded_array =>
      match load file with
      | Raise _ => (SystemExit 1, file)
      | Return loaded =>
          let written := Object (update_somenumbers_json key encoded_array loaded) in
          match print (literal "1. Review the changes: git diff " ++ output) with
          | Raise _ => (SystemExit 1, written)
          | Return _ => (Updated output key encoded_array, written)
          end
      end
  | ended => (ended, file)
  end.

End Verifier.

(** The payload the generator builds for a level of its tables. *)
Definition payload_of_level (level : Z) : option str :=
  match WORKER_URLS level, TIER_NAMES level with
  | Some worker_url, Some tier_name =>
      Some (literal "MEAM " ++ worker_url ++ literal " " ++ tier_name
            ++ literal "@meam-firstlogin.internal")
  | _, _ => None
  end.

(** * Binary64 division of integers

    Facts about [true_divide], proved from the definitions of [SpecFloat]:
    the quotient of two positive integers is a float with a 53-bit mantissa
    that lies within one unit in the last place of the exact quotient, and
    an exact quotient in [32,126] is returned as it is. *)
Module Binary64.


Lemma digits2_pos_size (p : positive) : digits2_pos p = Pos.size p.
Proof. induction p; simpl; congruence. Qed.

Lemma digits_log2 (p : positive) : Zdigits2 (Zpos p) = Z.log2 (Zpos p) + 1.
Proof.
  destruct p; simpl; rewrite ?digits2_pos_size; lia.
Qed.

Lemma digits_bounds (z : Z) :
  0 < z -> 2 ^ (Zdigits2 z - 1) <= z < 2 ^ Zdigits2 z.
Proof.
  intros Hz. destruct z as [|p|p]; try lia.
  rewrite digits_log2.
  replace (Z.log2 (Z.pos p) + 1 - 1) with (Z.log2 (Z.pos p)) by lia.
  pose proof (Z.log2_spec (Z.pos p) Hz) as H.
  unfold Z.succ in H. exact H.
Qed.

Lemma digits_unique (z k : Z) :
  1 <= k -> 2 ^ (k - 1) <= z < 2 ^ k -> Zdigits2 z = k.
Proof.
  intros Hk Hz.
  assert (0 < z) as Hpos.
  { assert (0 < 2 ^ (k - 1)) by (apply Z.pow_pos_nonneg; lia). lia. }
  destruct z as [|p|p]; try lia.
  rewrite digits_log2.
  assert (Z.log2 (Z.pos p) = k - 1) as ->; [|lia].
  apply Z.log2_unique; [lia|].
  unfold Z.succ. replace (k - 1 + 1) with k by lia. exact Hz.
Qed.

Lemma digits_pos (z : Z) : 0 < z -> 1 <= Zdigits2 z.
Proof. destruct z; simpl; lia. Qed.

(** One step of the right shift halves the mantissa. *)
Lemma shr_1_m (mrs : shr_record) :
  0 <= shr_m mrs -> shr_m (shr_1 mrs) = shr_m mrs / 2.
Proof.
  destruct mrs as [m r s]; simpl. intros Hm.
  destruct m as [|p|p]; try lia; [reflexivity|].
  destruct p as [p|p|]; simpl.
  - rewrite Pos2Z.inj_xI.
    apply Z.div_unique with (r := 1); lia.
  - rewrite Pos2Z.inj_xO.
    apply Z.div_unique with (r := 0); lia.
  - reflexivity.
Qed.

Lemma iter_shr_1_m (p : positive) (mrs : shr_record) :
  0 <= shr_m mrs ->
  shr_m (iter_pos shr_1 p mrs) = shr_m mrs / 2 ^ Zpos p.
Proof.
  revert mrs. induction p as [p IH|p IH|]; intros mrs Hm; simpl iter_pos.
  - assert (0 <= shr_m (shr_1 mrs)) as H1
      by (rewrite shr_1_m by assumption; apply Z.div_pos; lia).
    assert (0 <= shr_m (iter_pos shr_1 p (shr_1 mrs))) as H2
      by (rewrite IH by assumption; apply Z.div_pos; [lia|apply Z.pow_pos_nonneg; lia]).
    rewrite IH, IH, shr_1_m by assumption.
    rewrite !Z.div_div by (try apply Z.pow_pos_nonneg; lia).
    f_equal.
    replace (Z.pos p~1) with (1 + Z.pos p + Z.pos p) by lia.
    rewrite (Z.pow_add_r 2 (1 + Z.pos p)), (Z.pow_add_r 2 1) by lia.
    change (2 ^ 1) with 2. ring.
  - assert (0 <= shr_m (iter_pos shr_1 p mrs)) as H2
      by (rewrite IH by assumption; apply Z.div_pos; [lia|apply Z.pow_pos_nonneg; lia]).
    rewrite IH, IH by assumption.
    rewrite !Z.div_div by (try apply Z.pow_pos_nonneg; lia).
    f_equal.
    replace (Z.pos p~0) with (Z.pos p + Z.pos p) by lia.
    rewrite (Z.pow_add_r 2 (Z.pos p)) by lia. ring.
  - rewrite shr_1_m by assumption. reflexivity.
Qed.

(** The mantissa after [shr]. *)
Lemma shr_m_shift (mrs : shr_record) (e t : Z) :
  0 <= shr_m mrs -> 0 <= t ->
  shr_m (fst (shr mrs e t)) = shr_m mrs / 2 ^ t /\ snd (shr mrs e t) = e + t.
Proof.
  intros Hm Ht. destruct t as [|p|p]; try lia; simpl.
  - rewrite Z.div_1_r. split; [reflexivity|lia].
  - split; [apply iter_shr_1_m; assumption|reflexivity].
Qed.

Lemma shr_record_of_loc_m (m : Z) (l : location) :
  shr_m (shr_record_of_loc m l) = m.
Proof. destruct l as [|[]]; reflexivity. Qed.

Lemma round_nearest_even_cases (m : Z) (l : location) :
  round_nearest_even m l = m \/ round_nearest_even m l = m + 1.
Proof.
  destruct l as [|[]]; simpl; auto. destruct (Z.even m); auto.
Qed.

Lemma fexp_normal (x : Z) : -1021 <= x -> fexp prec emax x = x - 53.
Proof. unfold fexp, emin, prec, emax. lia. Qed.

Lemma pow2_pos (k : Z) : 0 <= k -> 0 < 2 ^ k.
Proof. intros; apply Z.pow_pos_nonneg; lia. Qed.

Lemma pow2_split (a b : Z) : 0 <= a -> 0 <= b -> 2 ^ (a + b) = 2 ^ a * 2 ^ b.
Proof. intros; apply Z.pow_add_r; assumption. Qed.

(** Shifting a mantissa of [53 + t] bits to 53 bits. *)
Lemma shr_fexp_spec (q e t : Z) (l : location) :
  0 < q -> Zdigits2 q = 53 + t -> 0 <= t -> -1074 <= e + t ->
  exists mrs, shr_fexp prec emax q e l = (mrs, e + t) /\ shr_m mrs = q / 2 ^ t.
Proof.
  intros Hq Hd Ht He. unfold shr_fexp.
  rewrite Hd, fexp_normal by lia.
  replace (53 + t + e - 53 - e) with t by lia.
  pose proof (shr_m_shift (shr_record_of_loc q l) e t) as H.
  rewrite shr_record_of_loc_m in H. destruct H as [H1 H2]; [lia|lia|].
  destruct (shr (shr_record_of_loc q l) e t) as [mrs e1]; simpl in *.
  exists mrs. subst e1. auto.
Qed.

Lemma shifted_mantissa_bounds (q t : Z) :
  0 < q -> Zdigits2 q = 53 + t -> 0 <= t ->
  2 ^ 52 <= q / 2 ^ t < 2 ^ 53.
Proof.
  intros Hq Hd Ht.
  pose proof (digits_bounds q Hq) as Hb. rewrite Hd in Hb.
  replace (53 + t - 1) with (52 + t) in Hb by lia.
  rewrite !pow2_split in Hb by lia.
  pose proof (pow2_pos t Ht) as Hp.
  split.
  - apply Z.div_le_lower_bound; lia.
  - apply Z.div_lt_upper_bound; lia.
Qed.

(** The result of rounding a quotient [q * 2^e] whose mantissa has
    [53 + t] bits: a 53-bit mantissa [M] at the exponent [e2], where
    [M * 2^e2] is the truncation [q / 2^t * 2^(e+t)] or the float just
    above it; beyond the largest exponent the result is an infinity. *)
Lemma binary_round_aux_spec (s : bool) (q e t : Z) (l : location) :
  0 < q -> Zdigits2 q = 53 + t -> 0 <= t -> -1074 <= e + t ->
  exists (M : positive) (e2 : Z),
    binary_round_aux prec emax s q e l
    = (if e2 <=? 971 then S754_finite s M e2 else S754_infinity s)
    /\ 2 ^ 52 <= Zpos M < 2 ^ 53
    /\ ((e2 = e + t /\ (Zpos M = q / 2 ^ t \/ Zpos M = q / 2 ^ t + 1))
        \/ (e2 = e + t + 1 /\ Zpos M = 2 ^ 52 /\ q / 2 ^ t = 2 ^ 53 - 1)).
Proof.
  intros Hq Hd Ht He.
  destruct (shr_fexp_spec q e t l Hq Hd Ht He) as (mrs1 & E1 & Hm1).
  pose proof (shifted_mantissa_bounds q t Hq Hd Ht) as Hb.
  unfold binary_round_aux. rewrite E1.
  set (M1 := round_nearest_even (shr_m mrs1) (loc_of_shr_record mrs1)).
  assert (M1 = q / 2 ^ t \/ M1 = q / 2 ^ t + 1) as HM1.
  { unfold M1. rewrite <- Hm1. apply round_nearest_even_cases. }
  assert (0 < M1) as HM1pos by lia.
  destruct (Z_lt_le_dec M1 (2 ^ 53)) as [Hlt|Hge].
  - assert (Zdigits2 M1 = 53 + 0) as Hd1 by (apply digits_unique; simpl; lia).
    destruct (shr_fexp_spec M1 (e + t) 0 loc_Exact HM1pos Hd1) as (mrs2 & E2 & Hm2);
      [lia|lia|].
    rewrite E2, Hm2. change (2 ^ 0) with 1. rewrite Z.div_1_r.
    destruct M1 as [|M|M]; try lia.
    exists M, (e + t). rewrite Z.add_0_r. unfold emax, prec.
    split; [reflexivity|]. split; [lia|]. left. split; [lia|exact HM1].
  - assert (M1 = 2 ^ 53) as HM by lia.
    assert (Zdigits2 M1 = 53 + 1) as Hd1 by (rewrite HM; reflexivity).
    destruct (shr_fexp_spec M1 (e + t) 1 loc_Exact HM1pos Hd1) as (mrs2 & E2 & Hm2);
      [lia|lia|].
    rewrite E2, Hm2, HM. change (2 ^ 53 / 2 ^ 1) with (Zpos (2 ^ 52)).
    exists (2 ^ 52)%positive, (e + t + 1). unfold emax, prec.
    split; [reflexivity|]. split; [simpl; lia|]. right.
    split; [lia|]. split; [reflexivity|lia].
Qed.

Lemma digits_lower (z a : Z) : 0 < z -> 2 ^ (a - 1) <= z -> a <= Zdigits2 z.
Proof.
  intros Hz Ha. pose proof (digits_bounds z Hz) as [_ Hu].
  pose proof (digits_pos z Hz).
  destruct (Z_le_gt_dec a (Zdigits2 z)) as [|Hgt]; [assumption|exfalso].
  assert (2 ^ Zdigits2 z <= 2 ^ (a - 1)) by (apply Z.pow_le_mono_r; lia).
  lia.
Qed.

Lemma digits_upper (z a : Z) : 0 < z -> z < 2 ^ a -> Zdigits2 z <= a.
Proof.
  intros Hz Ha. pose proof (digits_bounds z Hz) as [Hl _].
  pose proof (digits_pos z Hz).
  destruct (Z_le_gt_dec (Zdigits2 z) a) as [|Hgt]; [assumption|exfalso].
  assert (2 ^ a <= 2 ^ (Zdigits2 z - 1)) by (apply Z.pow_le_mono_r; lia).
  lia.
Qed.

Lemma digits_mono (a b : Z) : 0 < a -> a <= b -> Zdigits2 a <= Zdigits2 b.
Proof.
  intros Ha Hab. apply digits_upper; [assumption|].
  pose proof (digits_bounds b ltac:(lia)). lia.
Qed.

(** [SFdiv] on two integers: the integer division it performs and the
    rounding of its quotient. *)
Lemma SFdiv_ints (sn sd : bool) (n d : positive) :
  SFdiv prec emax (S754_finite sn n 0) (S754_finite sd d 0)
  = let e := Z.min (fexp prec emax (Zdigits2 (Zpos n) - Zdigits2 (Zpos d))) 0 in
    binary_round_aux prec emax (xorb sn sd)
      (Zpos n * 2 ^ (- e) / Zpos d) e
      (new_location (Zpos d) ((Zpos n * 2 ^ (- e)) mod Zpos d)).
Proof.
  unfold SFdiv, SFdiv_core_binary.
  rewrite !Z.add_0_r. change (0 - 0) with 0.
  set (e := Z.min (fexp prec emax (Zdigits2 (Zpos n) - Zdigits2 (Zpos d))) 0).
  assert (e <= 0) as He by (unfold e; lia).
  cbv zeta.
  assert (match 0 - e with
          | 0 => Zpos n
          | Zpos _ => Z.shiftl (Zpos n) (0 - e)
          | Zneg _ => 0
          end = Zpos n * 2 ^ (- e)) as ->.
  { replace (0 - e) with (- e) by lia.
    destruct (- e) as [|p|p] eqn:E; try lia.
    rewrite Z.shiftl_mul_pow2 by lia. reflexivity. }
  unfold Z.div, Z.modulo.
  destruct (Z.div_eucl (Zpos n * 2 ^ (- e)) (Zpos d)) as [q r]. reflexivity.
Qed.

(** Truncating [n * (P * T) / d] and then dividing by [T] truncates
    [n * P / d]. *)
Lemma truncations_compose (n d q M0 P T : Z) :
  0 < d -> 0 < T ->
  d * q <= n * (P * T) < d * (q + 1) ->
  M0 * T <= q < (M0 + 1) * T ->
  M0 * d <= n * P < (M0 + 1) * d.
Proof.
  intros Hd HT [Hq1 Hq2] [Hm1 Hm2]. split.
  - apply Z.mul_le_mono_pos_r with (p := T); [assumption|].
    apply Z.le_trans with (d * q); [|lia].
    replace (M0 * d * T) with (d * (M0 * T)) by ring.
    apply Z.mul_le_mono_nonneg_l; lia.
  - apply Z.mul_lt_mono_pos_r with (p := T); [assumption|].
    apply Z.lt_le_trans with (d * (q + 1)); [lia|].
    replace ((M0 + 1) * d * T) with (d * ((M0 + 1) * T)) by ring.
    apply Z.mul_le_mono_nonneg_l; lia.
Qed.

(** ** The quotient of two positive integers

    For a divisor below [2^24] the float returned by the division has a
    53-bit mantissa [M] and an exponent [e2] with the exact quotient
    within one unit in the last place: [(M-1) * 2^e2 <= n/d <= (M+1) * 2^e2]. *)
Lemma SFdiv_ints_spec (sn sd : bool) (n d : positive) :
  Zpos d < 2 ^ 24 ->
  exists (M : positive) (e2 : Z),
    SFdiv prec emax (S754_finite sn n 0) (S754_finite sd d 0)
    = (if e2 <=? 971 then S754_finite (xorb sn sd) M e2
       else S754_infinity (xorb sn sd))
    /\ 2 ^ 52 <= Zpos M < 2 ^ 53
    /\ e2 <= Zdigits2 (Zpos n) - 52
    /\ (e2 <= 0 ->
        (Zpos M - 1) * Zpos d <= Zpos n * 2 ^ (- e2) <= (Zpos M + 1) * Zpos d).
Proof.
  intros Hd. rewrite SFdiv_ints.
  set (Dn := Zdigits2 (Zpos n)). set (Dd := Zdigits2 (Zpos d)).
  pose proof (digits_bounds (Zpos n) ltac:(lia)) as Hn. fold Dn in Hn.
  pose proof (digits_bounds (Zpos d) ltac:(lia)) as Hdd. fold Dd in Hdd.
  assert (1 <= Dn) as HDn by (apply digits_pos; lia).
  assert (1 <= Dd <= 24) as HDd.
  { split; [apply digits_pos; lia|apply digits_upper; lia]. }
  rewrite fexp_normal by lia. cbv zeta.
  destruct (Z_le_gt_dec (Dn - Dd) 53) as [Hk|Hk].
  - (* the quotient is scaled up to 53 or 54 bits *)
    rewrite Z.min_l by lia.
    set (s := - (Dn - Dd - 53)). assert (0 <= s) as Hs by (unfold s; lia).
    set (N := Zpos n * 2 ^ s).
    assert (2 ^ (52 + Dd) <= N < 2 ^ (53 + Dd)) as HN.
    { unfold N. replace (52 + Dd) with (Dn - 1 + s) by (unfold s; lia).
      replace (53 + Dd) with (Dn + s) by (unfold s; lia).
      rewrite !pow2_split by lia. pose proof (pow2_pos s Hs). nia. }
    replace (53 + Dd) with (54 + (Dd - 1)) in HN by lia.
    rewrite !pow2_split in HN by lia.
    pose proof (pow2_pos (Dd - 1) ltac:(lia)) as HpDd.
    assert (2 ^ Dd = 2 * 2 ^ (Dd - 1)) as HDd2.
    { replace Dd with (1 + (Dd - 1)) at 1 by lia. rewrite pow2_split by lia. reflexivity. }
    set (q := N / Zpos d).
    assert (2 ^ 52 <= q < 2 ^ 54) as Hq.
    { unfold q. split.
      - apply Z.div_le_lower_bound; [lia|]. nia.
      - apply Z.div_lt_upper_bound; [lia|]. nia. }
    assert (Zpos d * q <= N < Zpos d * (q + 1)) as Hdiv.
    { unfold q. pose proof (Z.mul_div_le N (Zpos d) ltac:(lia)).
      pose proof (Z.mul_succ_div_gt N (Zpos d) ltac:(lia)). lia. }
    set (t := Zdigits2 q - 53).
    assert (0 <= t <= 1) as Ht.
    { unfold t. split.
      - assert (53 <= Zdigits2 q) by (apply digits_lower; simpl; lia). lia.
      - assert (Zdigits2 q <= 54) by (apply digits_upper; lia). lia. }
    destruct (binary_round_aux_spec (xorb sn sd) q (Dn - Dd - 53) t
                (new_location (Zpos d) (N mod Zpos d)))
      as (M & e2 & HR & HM & Hcases); [lia|unfold t; lia|lia|lia|].
    exists M, e2. split; [exact HR|]. split; [exact HM|].
    pose proof (shifted_mantissa_bounds q t ltac:(lia) ltac:(unfold t; lia) ltac:(lia)) as HM0.
    assert (q / 2 ^ t * 2 ^ t <= q < (q / 2 ^ t + 1) * 2 ^ t) as Hq0.
    { pose proof (pow2_pos t ltac:(lia)).
      pose proof (Z.mul_div_le q (2 ^ t) ltac:(lia)).
      pose proof (Z.mul_succ_div_gt q (2 ^ t) ltac:(lia)). lia. }
    set (M0 := q / 2 ^ t) in *.
    pose proof (pow2_pos t ltac:(lia)) as HT.
    split; [lia|].
    intros He2.
    pose proof (pow2_pos (- e2) ltac:(lia)) as HP.
    destruct Hcases as [[E HMq]|(E & HMq & HM0')].
    + assert (2 ^ s = 2 ^ (- e2) * 2 ^ t) as HS
        by (rewrite <- pow2_split by lia; f_equal; unfold s; lia).
      pose proof (truncations_compose (Zpos n) (Zpos d) q M0 (2 ^ (- e2)) (2 ^ t)
                    ltac:(lia) ltac:(lia)
                    ltac:(unfold N in Hdiv; rewrite HS in Hdiv; exact Hdiv) Hq0).
      destruct HMq as [HMq|HMq]; rewrite HMq; lia.
    + assert (2 ^ s = 2 * 2 ^ (- e2) * 2 ^ t) as HS.
      { replace s with (1 + (- e2) + t) by (unfold s; lia).
        rewrite !pow2_split by lia. reflexivity. }
      pose proof (truncations_compose (Zpos n) (Zpos d) q M0 (2 * 2 ^ (- e2)) (2 ^ t)
                    ltac:(lia) ltac:(lia)
                    ltac:(unfold N in Hdiv; rewrite HS in Hdiv; exact Hdiv) Hq0).
      rewrite HMq. rewrite HM0' in *. lia.
  - (* the integer quotient already has more than 53 bits *)
    rewrite Z.min_r by lia. change (- 0) with 0. change (2 ^ 0) with 1.
    rewrite Z.mul_1_r.
    set (q := Zpos n / Zpos d).
    assert (2 ^ 53 <= q) as Hq.
    { unfold q. apply Z.div_le_lower_bound; [lia|].
      assert (2 ^ (53 + Dd) <= 2 ^ (Dn - 1)) by (apply Z.pow_le_mono_r; lia).
      rewrite pow2_split in * by lia. nia. }
    assert (q <= Zpos n) as Hqn.
    { unfold q. apply Z.div_le_upper_bound; [lia|]. nia. }
    set (t := Zdigits2 q - 53).
    assert (1 <= t) as Ht.
    { unfold t. assert (54 <= Zdigits2 q) by (apply digits_lower; simpl; lia). lia. }
    assert (Zdigits2 q <= Dn) as HDq by (apply digits_mono; lia).
    destruct (binary_round_aux_spec (xorb sn sd) q 0 t
                (new_location (Zpos d) (Zpos n mod Zpos d)))
      as (M & e2 & HR & HM & Hcases); [lia|unfold t; lia|lia|lia|].
    exists M, e2. split; [exact HR|]. split; [exact HM|].
    split; [unfold t in *; lia|]. intros He2. lia.
Qed.

(** ** The validity test on the quotient *)

Lemma float_of_int_32 : float_of_int 32 = S754_finite false (2 ^ 52) (-47).
Proof. reflexivity. Qed.

Lemma float_of_int_126 : float_of_int 126 = S754_finite false (126 * 2 ^ 46) (-46).
Proof. reflexivity. Qed.

Lemma invalid_negative (M : positive) (e : Z) :
  invalid_character (S754_finite true M e) = true.
Proof.
  unfold invalid_character, float_lt_int. rewrite float_of_int_32.
  change (SFltb (S754_finite true M e) (S754_finite false (2 ^ 52) (-47))) with true.
  rewrite orb_true_r. reflexivity.
Qed.

Lemma invalid_zero (b : bool) : invalid_character (S754_zero b) = true.
Proof.
  unfold invalid_character, float_lt_int. rewrite float_of_int_32. reflexivity.
Qed.

(** A positive float with a 53-bit mantissa passes the test only when it
    is an integer of [32,126]. *)
Lemma valid_positive (M : positive) (e2 : Z) :
  2 ^ 52 <= Zpos M < 2 ^ 53 ->
  invalid_character (S754_finite false M e2) = false ->
  exists c, 32 <= c <= 126 /\ Zpos M = c * 2 ^ (- e2) /\ -47 <= e2 <= -46.
Proof.
  intros HM H. unfold invalid_character in H.
  apply orb_false_iff in H. destruct H as [H Hgt].
  apply orb_false_iff in H. destruct H as [Hint Hlt].
  apply negb_false_iff in Hint.
  assert (-47 <= e2) as Hlo.
  { unfold float_lt_int in Hlt. rewrite float_of_int_32 in Hlt.
    unfold SFltb, SFcompare in Hlt.
    destruct (Z.compare_spec e2 (-47)) as [E|E|E]; [lia|discriminate|lia]. }
  assert (e2 < -46 \/ (e2 = -46 /\ Zpos M <= 126 * 2 ^ 46)) as Hhi.
  { unfold float_gt_int in Hgt. rewrite float_of_int_126 in Hgt.
    unfold SFltb, SFcompare in Hgt.
    destruct (Z.compare_spec (-46) e2) as [E|E|E]; [|discriminate|left; lia].
    right. split; [lia|].
    change (Pos.compare_cont Eq (126 * 2 ^ 46) M) with ((126 * 2 ^ 46 ?= M)%positive) in Hgt.
    destruct (Pos.compare_spec (126 * 2 ^ 46) M) as [E'|E'|E']; try discriminate.
    - subst M. reflexivity.
    - apply Pos2Z.pos_lt_pos in E'. lia. }
  unfold is_integer in Hint.
  destruct (Z.leb_spec 0 e2) as [Hpos|Hneg]; [lia|].
  apply Z.eqb_eq in Hint.
  assert (0 < 2 ^ (- e2)) as HP by (apply pow2_pos; lia).
  exists (Zpos M / 2 ^ (- e2)).
  assert (Zpos M = Zpos M / 2 ^ (- e2) * 2 ^ (- e2)) as HMc.
  { rewrite (Z.div_mod (Zpos M) (2 ^ (- e2))) at 1 by lia. lia. }
  split; [|split; [exact HMc|lia]].
  set (c := Zpos M / 2 ^ (- e2)) in *.
  assert (e2 = -47 \/ e2 = -46) as [E|E] by lia.
  - subst e2. change (2 ^ (- -47)) with (2 ^ 47) in *. lia.
  - subst e2. change (2 ^ (- -46)) with (2 ^ 46) in *. lia.
Qed.

(** ** Exact quotients in [32,126] *)

Lemma character_facts_table :
  Forall character_facts (map Z.of_nat (seq 32 95)).
Proof.
  repeat (apply Forall_cons;
          [unfold character_facts; simpl Zdigits2;
           repeat split; try lia; vm_compute; reflexivity|]).
  apply Forall_nil.
Qed.

Lemma character_facts_all (c : Z) : 32 <= c <= 126 -> character_facts c.
Proof.
  intros Hc.
  pose proof character_facts_table as H.
  rewrite Forall_forall in H. apply H.
  replace c with (Z.of_nat (Z.to_nat c)) by lia.
  apply in_map, in_seq. lia.
Qed.

Lemma new_location_exact (d : Z) : new_location d 0 = loc_Exact.
Proof.
  unfold new_location, new_location_even, new_location_odd.
  destruct (Z.even d); reflexivity.
Qed.

(** Dividing [c * d] by [d] returns the float of [c]. *)
Lemma SFdiv_exact (c : Z) (n d : positive) :
  32 <= c <= 126 -> Zpos n = c * Zpos d ->
  SFdiv prec emax (S754_finite false n 0) (S754_finite false d 0) = float_of_int c.
Proof.
  intros Hc Hn. rewrite SFdiv_ints. cbv zeta.
  destruct (character_facts_all c Hc) as (HD & H1 & H2 & _).
  pose proof (digits_bounds c ltac:(lia)) as Hbc.
  pose proof (digits_bounds (Zpos d) ltac:(lia)) as Hbd.
  assert (1 <= Zdigits2 (Zpos d)) as HDd by (apply digits_pos; lia).
  set (Dc := Zdigits2 c) in *. set (Dd := Zdigits2 (Zpos d)) in *.
  assert (2 ^ (Dc + Dd - 2) <= Zpos n < 2 ^ (Dc + Dd)) as Hbn.
  { replace (Dc + Dd - 2) with ((Dc - 1) + (Dd - 1)) by lia.
    rewrite !pow2_split by lia. rewrite Hn.
    pose proof (pow2_pos (Dc - 1) ltac:(lia)).
    pose proof (pow2_pos (Dd - 1) ltac:(lia)). nia. }
  assert (Dc + Dd - 1 <= Zdigits2 (Zpos n) <= Dc + Dd) as HDn.
  { split.
    - apply digits_lower; [lia|]. replace (Dc + Dd - 1 - 1) with (Dc + Dd - 2) by lia. lia.
    - apply digits_upper; lia. }
  set (Dn := Zdigits2 (Zpos n)) in *.
  rewrite fexp_normal by lia. rewrite Z.min_l by lia.
  rewrite Hn.
  replace (c * Zpos d * 2 ^ (- (Dn - Dd - 53)))
    with (c * 2 ^ (- (Dn - Dd - 53)) * Zpos d) by ring.
  rewrite Z.div_mul, Z.mod_mul by lia.
  rewrite new_location_exact.
  assert (Dn - Dd = Dc - 1 \/ Dn - Dd = Dc) as [E|E] by lia;
    rewrite E.
  - replace (- (Dc - 1 - 53)) with (53 - (Dc - 1)) by lia. exact H1.
  - replace (- (Dc - 53)) with (53 - Dc) by lia. exact H2.
Qed.

(** ** What [true_divide] returns *)

Lemma true_divide_exact (c d : Z) :
  32 <= c <= 126 -> 0 < d ->
  true_divide (c * d) d = Return (float_of_int c).
Proof.
  intros Hc Hd. destruct d as [|pd|pd]; try lia.
  destruct (c * Zpos pd) as [|pn|pn] eqn:E; try nia.
  unfold true_divide. cbn [Z.ltb Z.compare Z.abs Z.to_pos].
  rewrite (SFdiv_exact c pn pd Hc (eq_sym E)).
  destruct (character_facts_all c Hc) as (_ & _ & _ & Hv & _).
  destruct (float_of_int c); try reflexivity. discriminate Hv.
Qed.

Lemma true_divide_raises (n d : Z) (e : exn) :
  true_divide n d = Raise e ->
  (d = 0 /\ e = ZeroDivisionError) \/ (d <> 0 /\ e = OverflowError).
Proof.
  unfold true_divide. intros H.
  destruct d as [|pd|pd].
  - left. split; congruence.
  - right. split; [discriminate|].
    destruct n; [discriminate| |];
      destruct (SFdiv _ _ _ _); congruence.
  - right. split; [discriminate|].
    destruct n; [discriminate| |];
      destruct (SFdiv _ _ _ _); congruence.
Qed.

(** An integer within one unit in the last place of [n * P / d], for a
    scale [P] above the divisor, is the exact quotient. *)
Lemma faithful_is_exact (n d c P : Z) :
  0 < d -> d < P ->
  (c * P - 1) * d <= n * P <= (c * P + 1) * d ->
  n = c * d.
Proof.
  intros Hd HP [H1 H2].
  assert (- d <= (n - c * d) * P <= d) as Hz
    by (split; ring_simplify; ring_simplify in H1; ring_simplify in H2; lia).
  destruct (Z.lt_trichotomy (n - c * d) 0) as [Hlt|[Heq|Hgt]]; [nia|lia|nia].
Qed.

(** For a divisor below [2^24]: the dividend is an exact multiple with a
    quotient in [32,126], or the division overflows, or the float it
    returns fails the validity test. *)
Lemma true_divide_checked (n d : Z) :
  0 < d < 2 ^ 24 ->
  (exists c, 32 <= c <= 126 /\ n = c * d)
  \/ (true_divide n d = Raise OverflowError /\ 2 ^ 1023 <= Z.abs n)
  \/ (exists v, true_divide n d = Return v /\ invalid_character v = true).
Proof.
  intros Hd. destruct d as [|pd|pd]; try lia.
  destruct n as [|pn|pn].
  - right; right. exists (S754_zero false). split; [reflexivity|apply invalid_zero].
  - destruct (SFdiv_ints_spec false false pn pd ltac:(lia))
      as (M & e2 & HR & HM & He2 & Hulp).
    unfold true_divide. cbn [Z.ltb Z.compare Z.abs Z.to_pos]. rewrite HR.
    simpl xorb in *.
    destruct (Z.leb_spec e2 971) as [Hfin|Hinf].
    + destruct (invalid_character (S754_finite false M e2)) eqn:Hv.
      * right; right. eexists; split; [reflexivity|exact Hv].
      * left. destruct (valid_positive M e2 HM Hv) as (c & Hc & HMc & Hr).
        exists c. split; [exact Hc|].
        specialize (Hulp ltac:(lia)). rewrite HMc in Hulp.
        apply faithful_is_exact with (P := 2 ^ (- e2)); [lia| |exact Hulp].
        assert (2 ^ 46 <= 2 ^ (- e2)) by (apply Z.pow_le_mono_r; lia). lia.
    + right; left. split; [reflexivity|].
      pose proof (digits_bounds (Zpos pn) ltac:(lia)) as [Hl _].
      assert (2 ^ 1023 <= 2 ^ (Zdigits2 (Zpos pn) - 1))
        by (apply Z.pow_le_mono_r; lia).
      lia.
  - destruct (SFdiv_ints_spec true false pn pd ltac:(lia))
      as (M & e2 & HR & HM & He2 & Hulp).
    unfold true_divide. cbn [Z.ltb Z.compare Z.abs Z.to_pos]. rewrite HR.
    simpl xorb in *.
    destruct (Z.leb_spec e2 971) as [Hfin|Hinf].
    + right; right. eexists; split; [reflexivity|apply invalid_negative].
    + right; left. split; [reflexivity|].
      pose proof (digits_bounds (Zpos pn) ltac:(lia)) as [Hl _].
      assert (2 ^ 1023 <= 2 ^ (Zdigits2 (Zpos pn) - 1))
        by (apply Z.pow_le_mono_r; lia).
      lia.
Qed.

End Binary64.

(** * The transform *)
Module Transform.

Import Binary64.

Lemma len_nonneg {A : Type} (s : list A) : 0 <= len s.
Proof. unfold len. lia. Qed.

Lemma len_pos {A : Type} (s : list A) : s <> [] -> 0 < len s.
Proof. destruct s; [congruence|]. intros _. unfold len. simpl. lia. Qed.

Lemma len_app {A : Type} (s t : list A) : len (s ++ t) = len s + len t.
Proof. unfold len. rewrite length_app. lia. Qed.

Lemma getitem_nth {A : Type} (s : list A) (i : Z) (default : A) :
  0 <= i < len s -> getitem s i = Return (nth (Z.to_nat i) s default).
Proof.
  intros Hi. unfold getitem.
  destruct (Z.ltb_spec i 0) as [|_]; [lia|].
  destruct (Z.ltb_spec i 0) as [|_]; [lia|].
  destruct (nth_error s (Z.to_nat i)) as [x|] eqn:E.
  - rewrite (nth_error_nth s (Z.to_nat i) default E). reflexivity.
  - apply nth_error_None in E. unfold len in Hi. lia.
Qed.

(** ** The per-position key *)

Lemma position_key_eq (aud_id : str) (pin_digits : list Z) (i : Z) :
  aud_id <> [] -> pin_digits <> [] ->
  position_key aud_id pin_digits i
  = Return (aud_ascii_at aud_id i, pin_multiplier_at pin_digits i).
Proof.
  intros Ha Hp. pose proof (len_pos aud_id Ha) as HLa.
  pose proof (len_pos pin_digits Hp) as HLp.
  unfold position_key, py_mod.
  destruct (Z.eqb_spec (len aud_id) 0) as [|_]; [lia|]. cbn [bind].
  rewrite (getitem_nth aud_id _ 0%N) by (apply Z.mod_pos_bound; lia). cbn [bind].
  destruct (Z.eqb_spec (len pin_digits) 0) as [|_]; [lia|]. cbn [bind].
  rewrite (getitem_nth pin_digits _ 0) by (apply Z.mod_pos_bound; lia). cbn [bind].
  reflexivity.
Qed.

Lemma position_key_empty_audience (pin_digits : list Z) (i : Z) :
  position_key [] pin_digits i = Raise ZeroDivisionError.
Proof. reflexivity. Qed.

Lemma aud_ascii_at_bounds (aud_id : str) (i : Z) :
  aud_id <> [] ->
  0 <= aud_ascii_at aud_id i
  /\ (no_nul aud_id -> 0 < aud_ascii_at aud_id i)
  /\ (valid_str aud_id -> aud_ascii_at aud_id i < 0x110000).
Proof.
  intros Ha. pose proof (len_pos aud_id Ha) as HL.
  unfold aud_ascii_at, ord.
  assert (Z.to_nat ((BASE_OFFSET + i) mod len aud_id) < length aud_id)%nat as Hi.
  { pose proof (Z.mod_pos_bound (BASE_OFFSET + i) (len aud_id) HL).
    unfold len in *. lia. }
  split; [lia|]. split; intros H.
  - pose proof (proj1 (Forall_nth _ aud_id) H _ 0%N Hi) as Hc. cbv beta in Hc. lia.
  - pose proof (proj1 (Forall_nth _ aud_id) H _ 0%N Hi) as Hc.
    unfold valid_codepoint in Hc. lia.
Qed.

Lemma pin_multiplier_at_bounds (pin_digits : list Z) (i : Z) :
  decimal_digits pin_digits -> 1 <= pin_multiplier_at pin_digits i <= 10.
Proof.
  intros [Hlen Hd]. unfold pin_multiplier_at.
  assert (len pin_digits = 4) as HL by (unfold len; lia).
  assert (Z.to_nat (i mod len pin_digits) < length pin_digits)%nat as Hi.
  { rewrite HL. pose proof (Z.mod_pos_bound i 4 ltac:(lia)). lia. }
  pose proof (proj1 (Forall_nth _ pin_digits) Hd _ 0 Hi) as Hc. cbv beta in Hc.
  destruct (Z.eqb_spec (nth (Z.to_nat (i mod len pin_digits)) pin_digits 0) 0); lia.
Qed.

Lemma divisor_at_bounds (aud_id : str) (pin_digits : list Z) (i : Z) :
  aud_id <> [] -> no_nul aud_id -> valid_str aud_id -> decimal_digits pin_digits ->
  0 < divisor_at aud_id pin_digits i < 2 ^ 24.
Proof.
  intros Ha Hn Hv Hp. unfold divisor_at.
  destruct (aud_ascii_at_bounds aud_id i Ha) as (_ & H1 & H2).
  specialize (H1 Hn). specialize (H2 Hv).
  pose proof (pin_multiplier_at_bounds pin_digits i Hp).
  change (2 ^ 24) with 16777216. nia.
Qed.

Lemma divisor_at_pos (aud_id : str) (pin_digits : list Z) (i : Z) :
  aud_id <> [] -> no_nul aud_id -> decimal_digits pin_digits ->
  0 < divisor_at aud_id pin_digits i.
Proof.
  intros Ha Hn Hp. unfold divisor_at.
  destruct (aud_ascii_at_bounds aud_id i Ha) as (_ & H1 & _).
  specialize (H1 Hn).
  pose proof (pin_multiplier_at_bounds pin_digits i Hp). nia.
Qed.

Lemma decimal_digits_nonempty (pin_digits : list Z) :
  decimal_digits pin_digits -> pin_digits <> [].
Proof. intros [H _] ->. discriminate H. Qed.

(** ** PIN normalisation *)

Lemma zfill_length (width : nat) (s : str) : (width <= length (zfill width s))%nat.
Proof.
  unfold zfill. destruct (Nat.leb_spec width (length s)) as [H|H]; [exact H|].
  destruct s as [|c rest].
  - rewrite repeat_length. simpl. lia.
  - destruct ((c =? 43)%N || (c =? 45)%N); cbn [length] in *;
      rewrite ?length_app, ?repeat_length; cbn [length]; unfold codepoint in *; lia.
Qed.

Lemma zfill_long (width : nat) (s : str) :
  (width <= length s)%nat -> zfill width s = s.
Proof.
  intros H. unfold zfill. destruct (Nat.leb_spec width (length s)); [reflexivity|lia].
Qed.

Lemma last_chars_length (n : nat) (s : str) :
  (n <= length s)%nat -> length (last_chars n s) = n.
Proof. intros H. unfold last_chars. rewrite length_skipn. lia. Qed.

Lemma last_chars_all (n : nat) (s : str) :
  (length s <= n)%nat -> last_chars n s = s.
Proof.
  intros H. unfold last_chars.
  replace (length s - n)%nat with 0%nat by lia. reflexivity.
Qed.

Lemma normalized_length (pin : str) : length (last_chars 4 (zfill 4 pin)) = 4%nat.
Proof. apply last_chars_length, zfill_length. Qed.

Lemma normalized_idempotent (pin : str) :
  last_chars 4 (zfill 4 (last_chars 4 (zfill 4 pin))) = last_chars 4 (zfill 4 pin).
Proof.
  pose proof (normalized_length pin) as H.
  rewrite (zfill_long 4 (last_chars 4 (zfill 4 pin))) by lia.
  apply last_chars_all. lia.
Qed.

Lemma comprehension_length {A B : Type} (f : A -> result B) (xs : list A) (ys : list B) :
  comprehension f xs = Return ys -> length ys = length xs.
Proof.
  revert ys. induction xs as [|x xs IH]; intros ys H; simpl in H.
  - injection H as <-. reflexivity.
  - destruct (f x) as [y|e]; [|discriminate]. cbn [bind] in H.
    destruct (comprehension f xs) as [ys'|e]; [|discriminate]. cbn [bind] in H.
    injection H as <-. simpl. f_equal. apply IH. reflexivity.
Qed.

Lemma comprehension_Forall {A B : Type} (f : A -> result B) (P : B -> Prop)
    (xs : list A) (ys : list B) :
  (forall x y, f x = Return y -> P y) ->
  comprehension f xs = Return ys -> Forall P ys.
Proof.
  intros Hf. revert ys. induction xs as [|x xs IH]; intros ys H; simpl in H.
  - injection H as <-. constructor.
  - destruct (f x) as [y|e] eqn:E; [|discriminate]. cbn [bind] in H.
    destruct (comprehension f xs) as [ys'|e]; [|discriminate]. cbn [bind] in H.
    injection H as <-. constructor; [eapply Hf; eassumption|apply IH; reflexivity].
Qed.

(** A comprehension raises exactly when some element does; the exception
    is that of the first such element. *)
Lemma comprehension_raises {A B : Type} (f : A -> result B) (xs : list A) (e : exn) :
  comprehension f xs = Raise e <->
  exists before x after,
    xs = before ++ x :: after /\ f x = Raise e
    /\ Forall (fun x' => exists y, f x' = Return y) before.
Proof.
  induction xs as [|x xs IH]; simpl.
  - split; [discriminate|].
    intros (before & x & after & H & _). destruct before; discriminate.
  - split.
    + destruct (f x) as [y|e'] eqn:E; cbn [bind].
      * destruct (comprehension f xs) as [ys|e'] eqn:E'; cbn [bind]; [discriminate|].
        intros H. injection H as ->.
        destruct (proj1 IH eq_refl) as (before & x' & after & -> & Hx & Hb).
        exists (x :: before), x', after. split; [reflexivity|]. split; [exact Hx|].
        constructor; [eauto|exact Hb].
      * intros H. injection H as ->. exists [], x, xs. auto.
    + intros (before & x' & after & Hxs & Hx & Hb).
      destruct before as [|b before]; simpl in Hxs; injection Hxs as -> ->.
      * rewrite Hx. reflexivity.
      * inversion Hb as [|? ? [y Hy] Hb']; subst. rewrite Hy. cbn [bind].
        assert (comprehension f (before ++ x' :: after) = Raise e) as ->
          by (apply IH; eauto 6).
        reflexivity.
Qed.

(** ** The encoding loop *)

Lemma enumerate_from_app {A : Type} (start : Z) (s t : list A) :
  enumerate_from start (s ++ t)
  = enumerate_from start s ++ enumerate_from (start + len s) t.
Proof.
  revert start. induction s as [|x s IH]; intros start; simpl.
  - unfold len. simpl. rewrite Z.add_0_r. reflexivity.
  - rewrite IH. do 3 f_equal. unfold len. simpl length. lia.
Qed.

Lemma encode_loop_products (aud_id : str) (pin_digits : list Z)
    (payload : str) (start : Z) (encoded_array : list Z) :
  aud_id <> [] -> pin_digits <> [] ->
  encode_loop aud_id pin_digits (enumerate_from start payload) encoded_array
  = Return (encoded_array ++ products aud_id pin_digits start payload).
Proof.
  intros Ha Hp. revert start encoded_array.
  induction payload as [|char rest IH]; intros start encoded_array; simpl.
  - rewrite app_nil_r. reflexivity.
  - rewrite position_key_eq by assumption. cbn [bind].
    rewrite IH, <- app_assoc. reflexivity.
Qed.

Lemma products_length (aud_id : str) (pin_digits : list Z) (start : Z) (payload : str) :
  length (products aud_id pin_digits start payload) = length payload.
Proof.
  revert start. induction payload as [|c rest IH]; intros start; simpl;
    [reflexivity|f_equal; apply IH].
Qed.

Lemma products_nth_error (aud_id : str) (pin_digits : list Z) (start : Z)
    (payload : str) (i : nat) :
  nth_error (products aud_id pin_digits start payload) i
  = option_map
      (fun char => ord char * aud_ascii_at aud_id (start + Z.of_nat i)
                   * pin_multiplier_at pin_digits (start + Z.of_nat i))
      (nth_error payload i).
Proof.
  revert start i. induction payload as [|c rest IH]; intros start i.
  - destruct i; reflexivity.
  - destruct i as [|i]; simpl.
    + rewrite Z.add_0_r. reflexivity.
    + rewrite IH. replace (start + 1 + Z.of_nat i) with (start + Z.pos (Pos.of_succ_nat i)) by lia.
      reflexivity.
Qed.

Lemma products_positive (aud_id : str) (pin_digits : list Z) (start : Z) (payload : str) :
  aud_id <> [] -> no_nul aud_id -> no_nul payload -> decimal_digits pin_digits ->
  Forall (fun encoded_value => 0 < encoded_value)
    (products aud_id pin_digits start payload).
Proof.
  intros Ha Hn Hp Hd. revert start.
  induction Hp as [|c rest Hc Hrest IH]; intros start; simpl; constructor.
  - destruct (aud_ascii_at_bounds aud_id start Ha) as (_ & H1 & _).
    specialize (H1 Hn).
    pose proof (pin_multiplier_at_bounds pin_digits start Hd).
    assert (0 < ord c) by (unfold ord; lia). nia.
  - apply IH.
Qed.

Lemma printable_no_nul (s : str) : printable s -> no_nul s.
Proof.
  unfold printable, no_nul. intros H.
  eapply Forall_impl; [|exact H]. cbv beta. intros c Hc. lia.
Qed.

(** ** The decoding loop *)

(** A position whose quotient is an exact integer of [32,126] decodes to
    that character and the loop goes on. *)
Lemma decode_loop_exact (aud_id : str) (pin_digits : list Z) (i c : Z)
    (rest : list (Z * Z)) (decoded_chars : str) :
  aud_id <> [] -> no_nul aud_id -> decimal_digits pin_digits ->
  32 <= c <= 126 ->
  decode_loop aud_id pin_digits
    ((i, c * divisor_at aud_id pin_digits i) :: rest) decoded_chars
  = decode_loop aud_id pin_digits rest (decoded_chars ++ [Z.to_N c]).
Proof.
  intros Ha Hn Hd Hc.
  pose proof (divisor_at_pos aud_id pin_digits i Ha Hn Hd) as Hpos.
  cbn [decode_loop].
  rewrite position_key_eq by (try apply decimal_digits_nonempty; assumption).
  cbn [bind]. fold (divisor_at aud_id pin_digits i).
  rewrite true_divide_exact by assumption. cbn [bind].
  destruct (character_facts_all c Hc) as (_ & _ & _ & Hv & Hint).
  rewrite Hv, Hint. unfold chr.
  destruct (Z.leb_spec 0 c); [|lia].
  destruct (Z.ltb_spec c 1114112); [|lia].
  reflexivity.
Qed.

(** Any position, for a valid key: the loop goes on with the exact
    character, or the division overflows, or the loop returns the error
    of that position. *)
Lemma decode_loop_step (aud_id : str) (pin_digits : list Z) (i x : Z)
    (rest : list (Z * Z)) (decoded_chars : str) :
  aud_id <> [] -> no_nul aud_id -> valid_str aud_id -> decimal_digits pin_digits ->
  (exists c, 32 <= c <= 126 /\ x = c * divisor_at aud_id pin_digits i
     /\ decode_loop aud_id pin_digits ((i, x) :: rest) decoded_chars
        = decode_loop aud_id pin_digits rest (decoded_chars ++ [Z.to_N c]))
  \/ (2 ^ 1023 <= Z.abs x
      /\ decode_loop aud_id pin_digits ((i, x) :: rest) decoded_chars
         = Raise OverflowError)
  \/ (exists v, true_divide x (divisor_at aud_id pin_digits i) = Return v
        /\ invalid_character v = true
        /\ decode_loop aud_id pin_digits ((i, x) :: rest) decoded_chars
           = Return (DECODE_ERROR i v)).
Proof.
  intros Ha Hn Hv Hd.
  pose proof (divisor_at_bounds aud_id pin_digits i Ha Hn Hv Hd) as Hb.
  destruct (true_divide_checked x _ Hb) as [(c & Hc & Hx)|[[Hr Hbig]|(v & Hr & Hinv)]].
  - left. exists c. split; [exact Hc|]. split; [exact Hx|].
    rewrite Hx. apply decode_loop_exact; assumption.
  - right; left. split; [exact Hbig|].
    cbn [decode_loop].
    rewrite position_key_eq by (try apply decimal_digits_nonempty; assumption).
    cbn [bind]. fold (divisor_at aud_id pin_digits i). rewrite Hr. reflexivity.
  - right; right. exists v. split; [exact Hr|]. split; [exact Hinv|].
    cbn [decode_loop].
    rewrite position_key_eq by (try apply decimal_digits_nonempty; assumption).
    cbn [bind]. fold (divisor_at aud_id pin_digits i). rewrite Hr. cbn [bind].
    rewrite Hinv. reflexivity.
Qed.

(** A float that fails the validity test is not the float of an exact
    character. *)
Lemma exact_character_valid (aud_id : str) (pin_digits : list Z) (i x : Z) (v : float) :
  aud_id <> [] -> no_nul aud_id -> decimal_digits pin_digits ->
  exact_character aud_id pin_digits i x ->
  true_divide x (divisor_at aud_id pin_digits i) = Return v ->
  invalid_character v = false.
Proof.
  intros Ha Hn Hd (c & Hc & Hx) Hr.
  pose proof (divisor_at_pos aud_id pin_digits i Ha Hn Hd) as Hpos.
  rewrite Hx, true_divide_exact in Hr by assumption.
  injection Hr as <-.
  destruct (character_facts_all c Hc) as (_ & _ & _ & Hv & _). exact Hv.
Qed.

(** A prefix of exact characters is decoded and the loop goes on after it. *)
Lemma decode_loop_prefix (aud_id : str) (pin_digits : list Z) (pre : list Z) (start : Z) :
  aud_id <> [] -> no_nul aud_id -> decimal_digits pin_digits ->
  (forall j y, nth_error pre j = Some y ->
               exact_character aud_id pin_digits (start + Z.of_nat j) y) ->
  exists chars : str,
    printable chars /\ length chars = length pre
    /\ forall rest decoded_chars,
        decode_loop aud_id pin_digits (enumerate_from start pre ++ rest) decoded_chars
        = decode_loop aud_id pin_digits rest (decoded_chars ++ chars).
Proof.
  intros Ha Hn Hd. revert start.
  induction pre as [|y pre IH]; intros start Hex.
  - exists []. split; [constructor|]. split; [reflexivity|].
    intros rest acc. rewrite app_nil_r. reflexivity.
  - destruct (Hex 0%nat y eq_refl) as (c & Hc & Hy).
    rewrite Z.add_0_r in Hy.
    destruct (IH (start + 1)) as (chars & Hp & Hl & Hloop).
    { intros j z Hj. replace (start + 1 + Z.of_nat j) with (start + Z.of_nat (S j)) by lia.
      apply Hex. exact Hj. }
    exists (Z.to_N c :: chars). split; [|split].
    + constructor; [lia|exact Hp].
    + simpl. f_equal. exact Hl.
    + intros rest acc. cbn [enumerate_from app]. rewrite Hy.
      rewrite decode_loop_exact by assumption.
      rewrite Hloop, <- app_assoc. reflexivity.
Qed.

Lemma decode_loop_products (aud_id : str) (pin_digits : list Z)
    (payload : str) (start : Z) (decoded_chars : str) :
  aud_id <> [] -> no_nul aud_id -> decimal_digits pin_digits ->
  printable payload ->
  decode_loop aud_id pin_digits
    (enumerate_from start (products aud_id pin_digits start payload)) decoded_chars
  = Return (Joined (decoded_chars ++ payload)).
Proof.
  intros Ha Hn Hd Hp. revert start decoded_chars.
  induction Hp as [|c rest Hc Hrest IH]; intros start acc; simpl products.
  - rewrite app_nil_r. reflexivity.
  - cbn [enumerate_from].
    rewrite <- Z.mul_assoc. fold (divisor_at aud_id pin_digits start).
    rewrite decode_loop_exact by (try assumption; unfold ord; lia).
    rewrite IH, <- app_assoc. unfold ord. rewrite N2Z.id. reflexivity.
Qed.

(** With every element below [2^1023] in magnitude the loop returns a
    string or the error of a position. *)
Lemma decode_loop_total (aud_id : str) (pin_digits : list Z)
    (encoded_array : list Z) (start : Z) (decoded_chars : str) :
  aud_id <> [] -> no_nul aud_id -> valid_str aud_id -> decimal_digits pin_digits ->
  printable decoded_chars ->
  Forall (fun x => Z.abs x < 2 ^ 1023) encoded_array ->
  (exists s, printable s /\
     decode_loop aud_id pin_digits (enumerate_from start encoded_array) decoded_chars
     = Return (Joined s))
  \/ (exists i v,
        start <= i < start + len encoded_array /\
        decode_loop aud_id pin_digits (enumerate_from start encoded_array) decoded_chars
        = Return (DECODE_ERROR i v)).
Proof.
  intros Ha Hn Hv Hd Hacc Hsmall. revert start decoded_chars Hacc.
  induction Hsmall as [|x rest Hx Hrest IH]; intros start acc Hacc.
  - left. exists acc. split; [exact Hacc|reflexivity].
  - cbn [enumerate_from].
    destruct (decode_loop_step aud_id pin_digits start x
                (enumerate_from (start + 1) rest) acc Ha Hn Hv Hd)
      as [(c & Hc & _ & Hloop)|[[Hbig _]|(v & _ & _ & Hloop)]].
    + rewrite Hloop.
      destruct (IH (start + 1) (acc ++ [Z.to_N c])) as [Hs|(i & v & Hi & Hr)].
      * apply Forall_app. split; [exact Hacc|]. constructor; [lia|constructor].
      * left. exact Hs.
      * right. exists i, v. split; [|exact Hr].
        unfold len in *. simpl length. lia.
    + lia.
    + right. exists start, v. split; [|exact Hloop].
      unfold len. simpl length. lia.
Qed.

Lemma comprehension_returns {A B : Type} (f : A -> result B) (xs : list A) :
  (exists ys, comprehension f xs = Return ys)
  <-> Forall (fun x => exists y, f x = Return y) xs.
Proof.
  induction xs as [|x xs IH]; simpl.
  - split; [constructor|eauto].
  - split.
    + intros [ys H]. destruct (f x) as [y|e] eqn:E; [|discriminate].
      cbn [bind] in H.
      destruct (comprehension f xs) as [ys'|e] eqn:E'; [|discriminate].
      constructor; [eauto|apply IH; eauto].
    + intros H. inversion H as [|? ? [y Hy] Hxs]; subst.
      apply IH in Hxs. destruct Hxs as [ys Hys].
      rewrite Hy, Hys. cbn [bind]. eauto.
Qed.

Section WithTable.

Variable unicode_decimal : codepoint -> option decimal_digit.

Lemma int_of_char_range (d : codepoint) (v : Z) :
  int_of_char unicode_decimal d = Return v -> 0 <= v <= 9.
Proof.
  unfold int_of_char.
  destruct (if (d <? 128)%N then ascii_decimal d else unicode_decimal d) as [x|];
    [|discriminate].
  intros H. injection H as <-. destruct x; simpl; lia.
Qed.

Lemma int_of_char_raises (d : codepoint) (e : exn) :
  int_of_char unicode_decimal d = Raise e -> e = ValueError (invalid_literal d).
Proof.
  unfold int_of_char.
  destruct (if (d <? 128)%N then ascii_decimal d else unicode_decimal d);
    [discriminate|].
  intros H. injection H as <-. reflexivity.
Qed.

Lemma pin_digits_of_decimal (pin : str) (pin_digits : list Z) :
  pin_digits_of unicode_decimal pin = Return pin_digits -> decimal_digits pin_digits.
Proof.
  unfold pin_digits_of. intros H. split.
  - rewrite (comprehension_length _ _ _ H). apply normalized_length.
  - eapply comprehension_Forall; [|exact H]. apply int_of_char_range.
Qed.

Lemma pin_digits_of_normalized (pin : str) :
  pin_digits_of unicode_decimal (last_chars 4 (zfill 4 pin))
  = pin_digits_of unicode_decimal pin.
Proof. unfold pin_digits_of. rewrite normalized_idempotent. reflexivity. Qed.

(** The source's [zfill(4)[-4:]] and the plain left padding give the same
    digits, and the same exception when a character is not a digit. *)
Lemma pin_digits_of_left_pad (pin : str) :
  pin_digits_of unicode_decimal pin
  = comprehension (int_of_char unicode_decimal) (left_pad_last4 pin).
Proof.
  unfold pin_digits_of, left_pad_last4.
  destruct (Nat.leb_spec 4 (length pin)) as [Hlong|Hshort].
  - rewrite zfill_long by exact Hlong.
    replace (4 - length pin)%nat with 0%nat by lia. reflexivity.
  - destruct pin as [|c1 [|c2 [|c3 [|c4 rest]]]]; simpl in Hshort; try lia;
      try reflexivity;
      unfold zfill; simpl length; cbn [Nat.leb Nat.sub repeat app];
      destruct ((c1 =? 43)%N || (c1 =? 45)%N) eqn:Hsign; try reflexivity;
      apply orb_true_iff in Hsign;
      destruct Hsign as [Hs|Hs]; apply N.eqb_eq in Hs; subst c1; reflexivity.
Qed.

Lemma left_pad_last4_length (pin : str) : length (left_pad_last4 pin) = 4%nat.
Proof.
  unfold left_pad_last4. apply last_chars_length.
  rewrite length_app, repeat_length. unfold str, codepoint in *. lia.
Qed.

Lemma left_pad_last4_idempotent (pin : str) :
  left_pad_last4 (left_pad_last4 pin) = left_pad_last4 pin.
Proof.
  pose proof (left_pad_last4_length pin) as H.
  unfold left_pad_last4 at 1. rewrite H. cbn [Nat.sub repeat app].
  apply last_chars_all. lia.
Qed.

(** ** [encode_payload] and [decode_payload] *)

Lemma encode_payload_products (payload aud_id pin : str) (pin_digits : list Z) :
  aud_id <> [] -> pin <> [] ->
  pin_digits_of unicode_decimal pin = Return pin_digits ->
  encode_payload unicode_decimal payload aud_id pin
  = Return (products aud_id pin_digits 0 payload).
Proof.
  intros Ha Hk Hpin. unfold encode_payload.
  destruct aud_id as [|a0 aud]; [congruence|].
  destruct pin as [|k0 pin]; [congruence|].
  cbn [is_empty orb]. rewrite Hpin. cbn [bind].
  destruct (pin_digits_of_decimal _ _ Hpin) as [Hlen Hd].
  assert (len pin_digits = 4) as -> by (unfold len; lia).
  cbn [Z.eqb Pos.eqb negb]. unfold enumerate.
  rewrite encode_loop_products;
    [reflexivity|discriminate|intros ->; discriminate Hlen].
Qed.

Lemma encode_payload_returns (payload aud_id pin : str) (encoded_array : list Z) :
  encode_payload unicode_decimal payload aud_id pin = Return encoded_array ->
  aud_id <> [] /\ pin <> [] /\
  exists pin_digits,
    pin_digits_of unicode_decimal pin = Return pin_digits
    /\ encoded_array = products aud_id pin_digits 0 payload.
Proof.
  intros H.
  assert (aud_id <> [] /\ pin <> []) as [Ha Hk].
  { unfold encode_payload in H.
    destruct aud_id; [discriminate|]. destruct pin; [discriminate|].
    split; discriminate. }
  split; [exact Ha|]. split; [exact Hk|].
  destruct (pin_digits_of unicode_decimal pin) as [pin_digits|e] eqn:Hpin.
  - exists pin_digits. split; [reflexivity|].
    rewrite (encode_payload_products payload aud_id pin pin_digits Ha Hk Hpin) in H.
    injection H as <-. reflexivity.
  - unfold encode_payload in H.
    destruct aud_id; [congruence|]. destruct pin; [congruence|].
    cbn [is_empty orb] in H. rewrite Hpin in H. discriminate H.
Qed.

Lemma decode_payload_loop (encoded_array : list Z) (aud_id pin : str) (pin_digits : list Z) :
  pin_digits_of unicode_decimal pin = Return pin_digits ->
  decode_payload unicode_decimal encoded_array aud_id pin
  = decode_loop aud_id pin_digits (enumerate_from 0 encoded_array) [].
Proof. intros H. unfold decode_payload, enumerate. rewrite H. reflexivity. Qed.

(** The first position whose quotient is not an exact integer of [32,126]
    ends the decoding: with the error of that position, or with the
    overflow of its division. *)
Lemma decode_payload_first_invalid (pre : list Z) (x : Z) (post : list Z)
    (aud_id pin : str) (pin_digits : list Z) :
  aud_id <> [] -> no_nul aud_id -> valid_str aud_id ->
  pin_digits_of unicode_decimal pin = Return pin_digits ->
  (forall j y, nth_error pre j = Some y ->
               exact_character aud_id pin_digits (Z.of_nat j) y) ->
  ~ exact_character aud_id pin_digits (len pre) x ->
  (2 ^ 1023 <= Z.abs x
   /\ decode_payload unicode_decimal (pre ++ x :: post) aud_id pin
      = Raise OverflowError)
  \/ (exists v,
        true_divide x (divisor_at aud_id pin_digits (len pre)) = Return v
        /\ invalid_character v = true
        /\ decode_payload unicode_decimal (pre ++ x :: post) aud_id pin
           = Return (DECODE_ERROR (len pre) v)).
Proof.
  intros Ha Hn Hv Hpin Hpre Hx.
  pose proof (pin_digits_of_decimal _ _ Hpin) as Hd.
  rewrite (decode_payload_loop _ _ _ _ Hpin).
  rewrite enumerate_from_app. cbn [enumerate_from]. rewrite Z.add_0_l.
  destruct (decode_loop_prefix aud_id pin_digits pre 0 Ha Hn Hd Hpre)
    as (chars & _ & _ & Hloop).
  rewrite Hloop.
  destruct (decode_loop_step aud_id pin_digits (len pre) x
              (enumerate_from (len pre + 1) post) ([] ++ chars) Ha Hn Hv Hd)
    as [(c & Hc & Hxc & _)|[[Hbig Hstep]|(v & Hr & Hinv & Hstep)]].
  - exfalso. apply Hx. exists c. split; assumption.
  - left. split; assumption.
  - right. exists v. split; [exact Hr|]. split; [exact Hinv|exact Hstep].
Qed.

(** ** Decimal characters *)

(** Below 128 the characters with a digit value are ['0'] to ['9'], and the
    value of each is its distance from ['0']. *)
Lemma ascii_decimal_table :
  forallb
    (fun n : nat =>
       match ascii_decimal (N.of_nat n) with
       | Some v =>
           (48 <=? n)%nat && (n <=? 57)%nat && (digit_value v =? Z.of_nat n - 48)
       | None => negb ((48 <=? n)%nat && (n <=? 57)%nat)
       end)
    (seq 0 128) = true.
Proof. vm_compute. reflexivity. Qed.

Lemma ascii_decimal_spec (d : codepoint) :
  (d < 128)%N ->
  (ascii_digit d ->
   exists v, ascii_decimal d = Some v /\ digit_value v = ascii_digit_value d)
  /\ (~ ascii_digit d -> ascii_decimal d = None).
Proof.
  intros Hd.
  pose proof ascii_decimal_table as T. rewrite forallb_forall in T.
  specialize (T (N.to_nat d)). rewrite N2Nat.id in T.
  assert (In (N.to_nat d) (seq 0 128)) as Hin by (apply in_seq; lia).
  specialize (T Hin). unfold ascii_digit, ascii_digit_value.
  destruct (ascii_decimal d) as [v|].
  - apply andb_true_iff in T. destruct T as [T Hv].
    apply andb_true_iff in T. destruct T as [T1 T2].
    apply Nat.leb_le in T1, T2. apply Z.eqb_eq in Hv.
    split.
    + intros _. exists v. split; [reflexivity|lia].
    + intros H. exfalso. apply H. lia.
  - apply negb_true_iff in T. apply andb_false_iff in T.
    split; [|reflexivity].
    intros H. exfalso. destruct T as [T|T]; apply Nat.leb_gt in T; lia.
Qed.

Lemma int_of_char_ascii_digit (d : codepoint) :
  ascii_digit d -> int_of_char unicode_decimal d = Return (ascii_digit_value d).
Proof.
  intros H.
  assert (d < 128)%N as Hd by (unfold ascii_digit in H; lia).
  unfold int_of_char. destruct (N.ltb_spec d 128) as [_|]; [|lia].
  destruct (proj1 (ascii_decimal_spec d Hd) H) as (v & -> & ->). reflexivity.
Qed.

Lemma int_of_char_ascii_other (d : codepoint) :
  (d < 128)%N -> ~ ascii_digit d ->
  int_of_char unicode_decimal d = Raise (ValueError (invalid_literal d)).
Proof.
  intros Hd H.
  unfold int_of_char. destruct (N.ltb_spec d 128) as [_|]; [|lia].
  rewrite (proj2 (ascii_decimal_spec d Hd) H). reflexivity.
Qed.

(** [int] returns on the decimal characters and on no other. *)
Lemma int_of_char_decimal (d : codepoint) :
  decimal_character unicode_decimal d
  <-> exists v, int_of_char unicode_decimal d = Return v.
Proof.
  split.
  - intros [H|[H1 H2]].
    + rewrite int_of_char_ascii_digit by exact H. eauto.
    + unfold int_of_char. destruct (N.ltb_spec d 128) as [|_]; [lia|].
      destruct (unicode_decimal d); [eauto|congruence].
  - intros [v H]. destruct (N.ltb_spec d 128) as [Hd|Hd].
    + left.
      destruct (N.le_gt_cases 48 d) as [H1|H1];
        [destruct (N.le_gt_cases d 57) as [H2|H2]; [split; assumption|]|];
        rewrite int_of_char_ascii_other in H;
        try discriminate H; try exact Hd; unfold ascii_digit; lia.
    + right. split; [exact Hd|].
      unfold int_of_char in H. destruct (N.ltb_spec d 128) as [|_]; [lia|].
      destruct (unicode_decimal d); [discriminate|discriminate H].
Qed.

Lemma comprehension_map {A B : Type} (f : A -> result B) (g : A -> B) (xs : list A) :
  Forall (fun x => f x = Return (g x)) xs ->
  comprehension f xs = Return (map g xs).
Proof.
  induction 1 as [|x xs Hx _ IH]; [reflexivity|].
  simpl. rewrite Hx, IH. reflexivity.
Qed.

(** The normal form is the end of the padded PIN. *)
Lemma left_pad_last4_suffix (pin : str) :
  exists dropped,
    repeat 48%N (4 - length pin) ++ pin = dropped ++ left_pad_last4 pin.
Proof.
  unfold left_pad_last4, last_chars.
  eexists. symmetry. apply firstn_skipn.
Qed.

(** ** [generate_firstlogin_array] *)

Lemma bind_returns {A B : Type} (m : result A) (k : A -> result B) (b : B) :
  bind m k = Return b -> exists a, m = Return a /\ k a = Return b.
Proof. destruct m as [a|e]; [eauto|discriminate]. Qed.

(** The key returned is that of the level and the audience id. *)
Lemma generate_firstlogin_array_key (level : Z) (aud_id key : str) (encoded_array : list Z) :
  generate_firstlogin_array unicode_decimal level aud_id = Return (key, encoded_array) ->
  key = key_name level aud_id.
Proof.
  unfold generate_firstlogin_array.
  destruct (WORKER_URLS level); [|discriminate].
  intros H.
  repeat match type of H with
         | bind _ _ = Return _ =>
             apply bind_returns in H; destruct H as (? & _ & H); cbv beta zeta in H
         end.
  injection H as <- _. reflexivity.
Qed.

End WithTable.

End Transform.

(** * Properties of the specification *)

Import Binary64 Transform.

(** Solves [printable], [no_nul] and [valid_str] on a concrete string. *)
Ltac chars :=
  unfold printable, no_nul, valid_str, valid_codepoint;
  repeat match goal with
         | |- context [literal ?s] =>
             let v := eval vm_compute in (literal s) in change (literal s) with v
         end;
  repeat first [apply Forall_nil | apply Forall_cons; [cbv beta; lia|]].

(** Runs the [print] calls of a closed text, which return. *)
Ltac printed :=
  repeat match goal with
         | |- context [bind (print ?s) _] =>
             lazymatch eval vm_compute in (print s) with
             | Return tt => change (print s) with (@Return unit tt); cbn [bind]
             end
         end.

(** ** Round trip *)

(** C1, as stated, fails on the code: an audience id may hold the character
    with code point zero, for which every product is zero and the decoder's
    division raises [ZeroDivisionError]; and the empty PIN, which normalises
    to four zeros, is refused by the encoder. *)
Lemma round_trip_counterexample :
  (printable (literal "A") /\ [0%N] <> []
   /\ pin_digits_of ascii_only (literal "1234") = Return [1; 2; 3; 4]
   /\ encode_payload ascii_only (literal "A") [0%N] (literal "1234") = Return [0]
   /\ decode_payload ascii_only [0] [0%N] (literal "1234") = Raise ZeroDivisionError)
  /\ (pin_digits_of ascii_only [] = Return [0; 0; 0; 0]
      /\ encode_payload ascii_only (literal "A") (literal "a") []
         = Raise (ValueError required_arguments)
      /\ decode_payload ascii_only [] (literal "a") [] = Return (Joined [])).
Proof.
  repeat split; try reflexivity; try discriminate. chars.
Qed.

(** C1 (amended): for every printable payload, every non-empty audience id
    without a zero code point and every non-empty PIN that normalises to
    four decimal digits, [encode_payload] returns an array and
    [decode_payload] on that array, with the same audience id and PIN,
    returns the payload. *)
Theorem round_trip (unicode_decimal : codepoint -> option decimal_digit)
    (payload aud_id pin : str) (pin_digits : list Z) :
  printable payload ->
  aud_id <> [] -> no_nul aud_id ->
  pin <> [] -> pin_digits_of unicode_decimal pin = Return pin_digits ->
  exists encoded_array,
    encode_payload unicode_decimal payload aud_id pin = Return encoded_array
    /\ decode_payload unicode_decimal encoded_array aud_id pin
       = Return (Joined payload).
Proof.
  intros Hp Ha Hn Hk Hpin.
  exists (products aud_id pin_digits 0 payload). split.
  - apply encode_payload_products; assumption.
  - rewrite (decode_payload_loop _ _ _ _ _ Hpin).
    rewrite decode_loop_products; try assumption; [reflexivity|].
    eapply pin_digits_of_decimal; eassumption.
Qed.

Lemma round_trip_witness :
  exists encoded_array,
    encode_payload ascii_only (literal "MEAM https://endpoint tier3@meam-firstlogin.internal")
      (literal "2a1cae831a8b85fb7847b7aeedf2075cbe37316002f31ef308ebd5d4e5094e0d")
      (literal "5329")
    = Return encoded_array
    /\ decode_payload ascii_only encoded_array
         (literal "2a1cae831a8b85fb7847b7aeedf2075cbe37316002f31ef308ebd5d4e5094e0d")
         (literal "5329")
       = Return (Joined (literal "MEAM https://endpoint tier3@meam-firstlogin.internal")).
Proof.
  apply (round_trip ascii_only _ _ _ [5; 3; 2; 9]);
    [chars | discriminate | chars | discriminate | reflexivity].
Defined.

(** ** Decode integrity *)

(** C2, as stated, fails on the code.  Decoding validates neither the key
    material nor the size of the elements: an audience character of code
    point zero makes the divisor zero and the division raises
    [ZeroDivisionError]; the empty audience id makes the audience index
    raise it; a PIN with a character that is not a digit raises the
    [ValueError] of [int]; and the quotient of [2^1100] by the divisor 97,
    which is not an exact integer, makes the float division raise
    [OverflowError].  None returns the error of position 0. *)
Lemma decode_integrity_counterexample :
  (divisor_at [0%N] [1; 2; 3; 4] 0 = 0
   /\ decode_payload ascii_only [65] [0%N] (literal "1234") = Raise ZeroDivisionError)
  /\ decode_payload ascii_only [65] [] (literal "1234") = Raise ZeroDivisionError
  /\ decode_payload ascii_only [65] (literal "a") (literal "12x4")
     = Raise (ValueError (invalid_literal 120))
  /\ (pin_digits_of ascii_only (literal "1111") = Return [1; 1; 1; 1]
      /\ divisor_at (literal "a") [1; 1; 1; 1] 0 = 97
      /\ 2 ^ 1100 mod 97 = 91
      /\ decode_payload ascii_only [2 ^ 1100] (literal "a") (literal "1111")
         = Raise OverflowError).
Proof. repeat split; vm_compute; reflexivity. Qed.

(** C2 (amended): for a non-empty audience id of valid, non-zero code
    points and a PIN that normalises to four decimal digits, if every
    position before [i] has an exact quotient in [32,126] and position [i]
    has not, then [decode_payload] stops at position [i] and returns no
    string; when [encoded[i]] is below [2^1023] in magnitude it returns the
    error of position [i], carrying the float quotient computed there. *)
Theorem decode_integrity (unicode_decimal : codepoint -> option decimal_digit)
    (pre : list Z) (x : Z) (post : list Z) (aud_id pin : str) (pin_digits : list Z) :
  aud_id <> [] -> no_nul aud_id -> valid_str aud_id ->
  pin_digits_of unicode_decimal pin = Return pin_digits ->
  (forall j y, nth_error pre j = Some y ->
               exact_character aud_id pin_digits (Z.of_nat j) y) ->
  ~ exact_character aud_id pin_digits (len pre) x ->
  (forall s,
      decode_payload unicode_decimal (pre ++ x :: post) aud_id pin
      <> Return (Joined s))
  /\ (Z.abs x < 2 ^ 1023 ->
      exists char_ascii,
        true_divide x (divisor_at aud_id pin_digits (len pre)) = Return char_ascii
        /\ decode_payload unicode_decimal (pre ++ x :: post) aud_id pin
           = Return (DECODE_ERROR (len pre) char_ascii)).
Proof.
  intros Ha Hn Hv Hpin Hpre Hx.
  destruct (decode_payload_first_invalid unicode_decimal pre x post aud_id pin
              pin_digits Ha Hn Hv Hpin Hpre Hx)
    as [[Hbig Hdec]|(v & Hr & _ & Hdec)]; rewrite Hdec.
  - split; [discriminate|]. lia.
  - split; [discriminate|]. intros _. exists v. split; [exact Hr|reflexivity].
Qed.

(** The array [37730; 20493; 12610; 67914] encodes "MEAM" under the audience
    id "abc" and the PIN "5329"; with the third element off by one the
    decoder stops at position 2. *)
Lemma decode_integrity_witness :
  (forall s,
      decode_payload ascii_only ([37730; 20493] ++ 12611 :: [67914])
        (literal "abc") (literal "5329")
      <> Return (Joined s))
  /\ exists char_ascii,
       true_divide 12611 (divisor_at (literal "abc") [5; 3; 2; 9] (len [37730; 20493]))
       = Return char_ascii
       /\ decode_payload ascii_only ([37730; 20493] ++ 12611 :: [67914])
            (literal "abc") (literal "5329")
          = Return (DECODE_ERROR (len [37730; 20493]) char_ascii).
Proof.
  assert (forall j y, nth_error [37730; 20493] j = Some y ->
                      exact_character (literal "abc") [5; 3; 2; 9] (Z.of_nat j) y)
    as Hpre.
  { intros [|[|j]] y Hj; simpl in Hj.
    - injection Hj as <-. exists 77. split; [lia|reflexivity].
    - injection Hj as <-. exists 69. split; [lia|reflexivity].
    - destruct j; discriminate Hj. }
  assert (~ exact_character (literal "abc") [5; 3; 2; 9] (len [37730; 20493]) 12611)
    as Hx.
  { intros (c & Hc & Hx).
    change (divisor_at (literal "abc") [5; 3; 2; 9] (len [37730; 20493])) with 194 in Hx.
    lia. }
  destruct (decode_integrity ascii_only [37730; 20493] 12611 [67914]
              (literal "abc") (literal "5329") [5; 3; 2; 9]
              ltac:(discriminate) ltac:(chars) ltac:(chars) eq_refl Hpre Hx)
    as [Hnone Herr].
  split; [exact Hnone|]. apply Herr. vm_compute. reflexivity.
Defined.

(** ** Tamper detection *)

(** C3, as stated, fails on the code.  The array [6305] encodes "A" under
    the audience id "a"; adding [2^1100] to its element breaks divisibility
    by 97, and decoding raises [OverflowError] instead of returning the
    error of position 0.  And under an audience id made of the character of
    code point zero every divisor is zero: changing the element of
    position 1 to 1 makes decoding raise [ZeroDivisionError] at position 0.
    And [encode_payload] encodes any payload: with a line feed at position
    0, a change at position 1 is not reached, the error is that of
    position 0 (the quotient 10.0). *)
Lemma tamper_detection_counterexample :
  (printable (literal "A")
   /\ encode_payload ascii_only (literal "A") (literal "a") (literal "1111")
      = Return [6305]
   /\ divisor_at (literal "a") [1; 1; 1; 1] 0 = 97
   /\ 6305 mod 97 = 0
   /\ (6305 + 2 ^ 1100) mod 97 = 91
   /\ decode_payload ascii_only (mutate 0 (6305 + 2 ^ 1100) [6305])
        (literal "a") (literal "1111")
      = Raise OverflowError)
  /\ (printable (literal "AB")
      /\ encode_payload ascii_only (literal "AB") [0%N] (literal "1111")
         = Return [0; 0]
      /\ divisor_at [0%N] [1; 1; 1; 1] 1 = 0
      /\ decode_payload ascii_only (mutate 1 1 [0; 0]) [0%N] (literal "1111")
         = Raise ZeroDivisionError)
  /\ (encode_payload ascii_only [10%N; 65%N] (literal "a") (literal "1111")
      = Return [970; 6305]
      /\ 6306 mod divisor_at (literal "a") [1; 1; 1; 1] 1 = 1
      /\ decode_payload ascii_only (mutate 1 6306 [970; 6305])
           (literal "a") (literal "1111")
         = Return (DECODE_ERROR 0 (float_of_int 10))).
Proof.
  split; [|split]; try (split; [chars|]); repeat split; vm_compute; reflexivity.
Qed.

(** C3 (amended): for the array that [encode_payload] returns on a
    printable payload and an audience id of valid, non-zero code points,
    replacing the element at a position [j] by a value that the divisor of
    position [j] does not divide makes [decode_payload], with the same
    audience id and PIN, return no string; when the new value is below
    [2^1023] in magnitude it returns the error of position [j]. *)
Theorem tamper_detection (unicode_decimal : codepoint -> option decimal_digit)
    (payload aud_id pin : str) (pin_digits encoded_array : list Z)
    (j : nat) (x : Z) :
  printable payload -> no_nul aud_id -> valid_str aud_id ->
  pin_digits_of unicode_decimal pin = Return pin_digits ->
  encode_payload unicode_decimal payload aud_id pin = Return encoded_array ->
  (j < length payload)%nat ->
  ~ (divisor_at aud_id pin_digits (Z.of_nat j) | x) ->
  (forall s,
      decode_payload unicode_decimal (mutate j x encoded_array) aud_id pin
      <> Return (Joined s))
  /\ (Z.abs x < 2 ^ 1023 ->
      exists char_ascii,
        decode_payload unicode_decimal (mutate j x encoded_array) aud_id pin
        = Return (DECODE_ERROR (Z.of_nat j) char_ascii)).
Proof.
  intros Hp Hn Hv Hpin Henc Hj Hx.
  destruct (encode_payload_returns _ _ _ _ _ Henc) as (Ha & Hk & ds & Hds & ->).
  rewrite Hpin in Hds. injection Hds as <-.
  unfold mutate.
  set (e := products aud_id pin_digits 0 payload).
  assert (length e = length payload) as Hlen by apply products_length.
  assert (len (firstn j e) = Z.of_nat j) as Hpre
    by (unfold len; rewrite length_firstn; lia).
  destruct (decode_payload_first_invalid unicode_decimal (firstn j e) x
              (skipn (S j) e) aud_id pin pin_digits Ha Hn Hv Hpin)
    as [[Hbig Hdec]|(v & _ & _ & Hdec)].
  - intros i y Hi.
    assert (i < j)%nat as Hij.
    { assert (nth_error (firstn j e) i <> None) as Hs by congruence.
      apply nth_error_Some in Hs. rewrite length_firstn in Hs. lia. }
    rewrite nth_error_firstn in Hi.
    destruct (Nat.ltb_spec i j) as [_|]; [|lia].
    unfold e in Hi. rewrite products_nth_error in Hi.
    destruct (nth_error payload i) as [c|] eqn:Hc; [|discriminate].
    cbn [option_map] in Hi. injection Hi as <-.
    exists (ord c). split.
    + apply nth_error_In in Hc.
      pose proof (proj1 (Forall_forall _ payload) Hp c Hc) as Hr.
      cbv beta in Hr. unfold ord. lia.
    + unfold divisor_at. ring.
  - rewrite Hpre. intros (c & _ & Hc). apply Hx. exists c. exact Hc.
  - rewrite Hdec. split; [discriminate|]. lia.
  - rewrite Hdec, Hpre. split; [discriminate|]. intros _. exists v. reflexivity.
Qed.

Lemma tamper_detection_witness :
  (forall s,
      decode_payload ascii_only (mutate 2 12611 [37730; 20493; 12610; 67914])
        (literal "abc") (literal "5329")
      <> Return (Joined s))
  /\ exists char_ascii,
       decode_payload ascii_only (mutate 2 12611 [37730; 20493; 12610; 67914])
         (literal "abc") (literal "5329")
       = Return (DECODE_ERROR (Z.of_nat 2) char_ascii).
Proof.
  assert (~ (divisor_at (literal "abc") [5; 3; 2; 9] (Z.of_nat 2) | 12611)) as Hx.
  { change (divisor_at (literal "abc") [5; 3; 2; 9] (Z.of_nat 2)) with 194.
    intros [q Hq]. lia. }
  destruct (tamper_detection ascii_only (literal "MEAM") (literal "abc") (literal "5329")
              [5; 3; 2; 9] [37730; 20493; 12610; 67914] 2 12611
              ltac:(chars) ltac:(chars) ltac:(chars) eq_refl eq_refl
              ltac:(simpl; lia) Hx)
    as [Hnone Herr].
  split; [exact Hnone|]. apply Herr. vm_compute. reflexivity.
Defined.

(** ** Length and positivity of the encoded array *)

(** C4, as stated, fails on the code: the empty PIN normalises to the four
    digits 0000, and [encode_payload] refuses it, so no array is returned. *)
Lemma length_preservation_counterexample :
  literal "a" <> []
  /\ last_chars 4 (zfill 4 []) = literal "0000"
  /\ pin_digits_of ascii_only [] = Return [0; 0; 0; 0]
  /\ encode_payload ascii_only (literal "A") (literal "a") []
     = Raise (ValueError required_arguments).
Proof. repeat split; try reflexivity. discriminate. Qed.

(** C4 (amended): for every payload, every non-empty audience id and every
    non-empty PIN that normalises to four decimal digits, [encode_payload]
    returns an array with one integer per character of the payload, in the
    same order: the element at position [i] is the product of the code of
    the character at position [i] with the two factors of that position. *)
Theorem length_preservation (unicode_decimal : codepoint -> option decimal_digit)
    (payload aud_id pin : str) (pin_digits : list Z) :
  aud_id <> [] -> pin <> [] ->
  pin_digits_of unicode_decimal pin = Return pin_digits ->
  exists encoded_array,
    encode_payload unicode_decimal payload aud_id pin = Return encoded_array
    /\ length encoded_array = length payload
    /\ forall (i : nat) (char : codepoint),
         nth_error payload i = Some char ->
         nth_error encoded_array i
         = Some (ord char * aud_ascii_at aud_id (Z.of_nat i)
                 * pin_multiplier_at pin_digits (Z.of_nat i)).
Proof.
  intros Ha Hk Hpin.
  exists (products aud_id pin_digits 0 payload).
  split; [apply encode_payload_products; assumption|].
  split; [apply products_length|].
  intros i char Hi. rewrite products_nth_error, Hi. reflexivity.
Qed.

Lemma length_preservation_witness :
  exists encoded_array,
    encode_payload ascii_only (literal "MEAM") (literal "abc") (literal "5329")
    = Return encoded_array
    /\ length encoded_array = length (literal "MEAM")
    /\ forall (i : nat) (char : codepoint),
         nth_error (literal "MEAM") i = Some char ->
         nth_error encoded_array i
         = Some (ord char * aud_ascii_at (literal "abc") (Z.of_nat i)
                 * pin_multiplier_at [5; 3; 2; 9] (Z.of_nat i)).
Proof.
  apply (length_preservation ascii_only (literal "MEAM") (literal "abc")
           (literal "5329") [5; 3; 2; 9]);
    [discriminate | discriminate | reflexivity].
Defined.

(** C5, as stated, fails on the code: position 0 selects the audience
    character of index 13; when that character has code point zero the
    audience code is zero, and so is the encoded element.  A payload
    character of code point zero, which [encode_payload] accepts, gives a
    zero element as well. *)
Lemma positivity_counterexample :
  (printable (literal "A")
   /\ literal "abcdefghijklm" ++ [0%N] <> []
   /\ pin_digits_of ascii_only (literal "1234") = Return [1; 2; 3; 4]
   /\ aud_ascii_at (literal "abcdefghijklm" ++ [0%N]) 0 = 0
   /\ encode_payload ascii_only (literal "A") (literal "abcdefghijklm" ++ [0%N])
        (literal "1234")
      = Return [0])
  /\ encode_payload ascii_only [0%N] (literal "a") (literal "1234") = Return [0].
Proof.
  split; [|reflexivity]. split; [chars|].
  repeat split; try reflexivity. discriminate.
Qed.

(** C5 (amended): for every payload and audience id without a zero code
    point (the audience id non-empty) and every non-empty PIN that
    normalises to four decimal digits, every element of the array that
    [encode_payload] returns is strictly positive. *)
Theorem positivity (unicode_decimal : codepoint -> option decimal_digit)
    (payload aud_id pin : str) (pin_digits : list Z) :
  no_nul payload ->
  aud_id <> [] -> no_nul aud_id ->
  pin <> [] -> pin_digits_of unicode_decimal pin = Return pin_digits ->
  exists encoded_array,
    encode_payload unicode_decimal payload aud_id pin = Return encoded_array
    /\ Forall (fun encoded_value => 0 < encoded_value) encoded_array.
Proof.
  intros Hp Ha Hn Hk Hpin.
  exists (products aud_id pin_digits 0 payload).
  split; [apply encode_payload_products; assumption|].
  apply products_positive; try assumption.
  eapply pin_digits_of_decimal; eassumption.
Qed.

Lemma positivity_witness :
  exists encoded_array,
    encode_payload ascii_only (literal "MEAM") (literal "abc") (literal "5029")
    = Return encoded_array
    /\ Forall (fun encoded_value => 0 < encoded_value) encoded_array.
Proof.
  apply (positivity ascii_only (literal "MEAM") (literal "abc") (literal "5029")
           [5; 0; 2; 9]);
    [chars | discriminate | chars | discriminate | reflexivity].
Defined.

(** ** Wrap-around of the audience index *)

(** C6: for an audience id of length [L >= 1] and every position [i], the
    audience index of position [i + L] is the audience index of position
    [i], [(BASE_OFFSET + i) mod L], and the two positions select the same
    audience character. *)
Theorem wrap_around (aud_id : str) (i : Z) :
  1 <= len aud_id ->
  py_mod (BASE_OFFSET + (i + len aud_id)) (len aud_id)
  = py_mod (BASE_OFFSET + i) (len aud_id)
  /\ py_mod (BASE_OFFSET + i) (len aud_id)
     = Return ((BASE_OFFSET + i) mod len aud_id)
  /\ aud_ascii_at aud_id (i + len aud_id) = aud_ascii_at aud_id i
  /\ forall pin_digits,
       pin_digits <> [] ->
       exists pin_multiplier pin_multiplier',
         position_key aud_id pin_digits i
         = Return (aud_ascii_at aud_id i, pin_multiplier)
         /\ position_key aud_id pin_digits (i + len aud_id)
            = Return (aud_ascii_at aud_id i, pin_multiplier').
Proof.
  intros HL.
  assert ((BASE_OFFSET + (i + len aud_id)) mod len aud_id
          = (BASE_OFFSET + i) mod len aud_id) as Hmod.
  { replace (BASE_OFFSET + (i + len aud_id))
      with (BASE_OFFSET + i + 1 * len aud_id) by ring.
    apply Z.mod_add. lia. }
  assert (aud_ascii_at aud_id (i + len aud_id) = aud_ascii_at aud_id i) as Hchar
    by (unfold aud_ascii_at; rewrite Hmod; reflexivity).
  assert (aud_id <> []) as Ha by (intros ->; unfold len in HL; simpl in HL; lia).
  split; [|split; [|split]].
  - unfold py_mod. rewrite Hmod. reflexivity.
  - unfold py_mod. destruct (Z.eqb_spec (len aud_id) 0); [lia|reflexivity].
  - exact Hchar.
  - intros pin_digits Hp.
    exists (pin_multiplier_at pin_digits i),
           (pin_multiplier_at pin_digits (i + len aud_id)).
    rewrite !position_key_eq by assumption. rewrite Hchar. split; reflexivity.
Qed.

Lemma wrap_around_witness :
  py_mod (BASE_OFFSET + (2 + len (literal "abc"))) (len (literal "abc"))
  = py_mod (BASE_OFFSET + 2) (len (literal "abc"))
  /\ py_mod (BASE_OFFSET + 2) (len (literal "abc"))
     = Return ((BASE_OFFSET + 2) mod len (literal "abc"))
  /\ aud_ascii_at (literal "abc") (2 + len (literal "abc"))
     = aud_ascii_at (literal "abc") 2
  /\ forall pin_digits,
       pin_digits <> [] ->
       exists pin_multiplier pin_multiplier',
         position_key (literal "abc") pin_digits 2
         = Return (aud_ascii_at (literal "abc") 2, pin_multiplier)
         /\ position_key (literal "abc") pin_digits (2 + len (literal "abc"))
            = Return (aud_ascii_at (literal "abc") 2, pin_multiplier').
Proof.
  apply (wrap_around (literal "abc") 2). vm_compute. discriminate.
Defined.

(** ** PIN normalisation *)

(** C7, as stated, fails on the code: the empty PIN reduces under the
    normalisation to 0000, four decimal digits, and [encode_payload] does
    not encode it as its normal form: it refuses it, with the error of the
    missing arguments, while it encodes the PIN 0000. *)
Lemma pin_normalization_counterexample :
  left_pad_last4 [] = literal "0000"
  /\ last_chars 4 (zfill 4 []) = literal "0000"
  /\ Forall ascii_digit (left_pad_last4 [])
  /\ literal "a" <> []
  /\ encode_payload ascii_only (literal "A") (literal "a") []
     = Raise (ValueError required_arguments)
  /\ encode_payload ascii_only (literal "A") (literal "a") (literal "0000")
     = Return [63050].
Proof.
  split; [reflexivity|]. split; [reflexivity|].
  split.
  { change (left_pad_last4 []) with [48%N; 48%N; 48%N; 48%N].
    repeat first [apply Forall_nil | apply Forall_cons; [unfold ascii_digit; lia|]]. }
  split; [discriminate|]. split; reflexivity.
Qed.

(** C7 (amended): [encode_payload] reads a non-empty PIN through its normal
    form, the last four characters of the PIN padded with zeros on the
    left: the normal form has four characters and ends the padded PIN; it
    gives the digits the source computes, and encodes as the PIN does (so
    "29" encodes as "0029", and "995329" as "5329").  A digit of ASCII has
    the value of its distance from "0", and any other character of ASCII
    has none.  When the normal form is made of digits of ASCII, the array
    is that of the products with their values; when it is made of decimal
    characters, the encoding succeeds; otherwise it fails with a
    [ValueError], that of [int] on the first character of the normal form
    that is not a decimal character. *)
Theorem pin_normalization (unicode_decimal : codepoint -> option decimal_digit)
    (payload aud_id pin : str) :
  pin <> [] ->
  length (left_pad_last4 pin) = 4%nat
  /\ (exists dropped,
        repeat 48%N (4 - length pin) ++ pin = dropped ++ left_pad_last4 pin)
  /\ pin_digits_of unicode_decimal pin
     = comprehension (int_of_char unicode_decimal) (left_pad_last4 pin)
  /\ encode_payload unicode_decimal payload aud_id (left_pad_last4 pin)
     = encode_payload unicode_decimal payload aud_id pin
  /\ encode_payload unicode_decimal payload aud_id (literal "29")
     = encode_payload unicode_decimal payload aud_id (literal "0029")
  /\ encode_payload unicode_decimal payload aud_id (literal "995329")
     = encode_payload unicode_decimal payload aud_id (literal "5329")
  /\ (forall d,
        ascii_digit d ->
        int_of_char unicode_decimal d = Return (ascii_digit_value d))
  /\ (forall d,
        (d < 128)%N -> ~ ascii_digit d ->
        int_of_char unicode_decimal d = Raise (ValueError (invalid_literal d)))
  /\ (aud_id <> [] ->
      Forall ascii_digit (left_pad_last4 pin) ->
      encode_payload unicode_decimal payload aud_id pin
      = Return (products aud_id (map ascii_digit_value (left_pad_last4 pin)) 0 payload))
  /\ (aud_id <> [] ->
      Forall (decimal_character unicode_decimal) (left_pad_last4 pin) ->
      exists encoded_array,
        encode_payload unicode_decimal payload aud_id pin = Return encoded_array)
  /\ (~ Forall (decimal_character unicode_decimal) (left_pad_last4 pin) ->
      exists why,
        encode_payload unicode_decimal payload aud_id pin = Raise (ValueError why)
        /\ (aud_id <> [] ->
            exists before d after,
              left_pad_last4 pin = before ++ d :: after
              /\ Forall (decimal_character unicode_decimal) before
              /\ ~ decimal_character unicode_decimal d
              /\ why = invalid_literal d)).
Proof.
  intros Hk.
  assert (forall k, k <> [] -> aud_id <> [] ->
            encode_payload unicode_decimal payload aud_id k
            = (pin_digits <- pin_digits_of unicode_decimal k ;;
               if negb (len pin_digits =? 4)
               then Raise (ValueError pin_not_four_digits)
               else encode_loop aud_id pin_digits (enumerate payload) [])%py)
    as Henc.
  { intros k Hk' Ha. unfold encode_payload.
    destruct aud_id; [congruence|]. destruct k; [congruence|]. reflexivity. }
  assert (forall k, encode_payload unicode_decimal payload [] k
                    = Raise (ValueError required_arguments)) as Hempty
    by reflexivity.
  assert (left_pad_last4 pin <> []) as Hne.
  { pose proof (left_pad_last4_length pin) as H. intros E. rewrite E in H. discriminate H. }
  split; [apply left_pad_last4_length|].
  split; [apply left_pad_last4_suffix|].
  split; [apply pin_digits_of_left_pad|].
  split.
  { destruct aud_id as [|a0 aud]; [rewrite !Hempty; reflexivity|].
    rewrite (Henc _ Hne), (Henc _ Hk), !pin_digits_of_left_pad by discriminate.
    rewrite left_pad_last4_idempotent. reflexivity. }
  split.
  { destruct aud_id as [|a0 aud]; [rewrite !Hempty; reflexivity|].
    rewrite !Henc by discriminate. reflexivity. }
  split.
  { destruct aud_id as [|a0 aud]; [rewrite !Hempty; reflexivity|].
    rewrite !Henc by discriminate. reflexivity. }
  split; [apply int_of_char_ascii_digit|].
  split; [apply int_of_char_ascii_other|].
  split.
  { intros Ha Hall. apply encode_payload_products; [exact Ha|exact Hk|].
    rewrite pin_digits_of_left_pad. apply comprehension_map.
    eapply Forall_impl; [|exact Hall].
    intros d Hd. apply int_of_char_ascii_digit. exact Hd. }
  split.
  - intros Ha Hall.
    assert (Forall (fun d => exists v, int_of_char unicode_decimal d = Return v)
              (left_pad_last4 pin)) as Hall'.
    { eapply Forall_impl; [|exact Hall]. intros d Hd. apply int_of_char_decimal. exact Hd. }
    apply comprehension_returns in Hall'. destruct Hall' as [ds Hds].
    rewrite <- pin_digits_of_left_pad in Hds.
    exists (products aud_id ds 0 payload).
    apply encode_payload_products; assumption.
  - intros Hnot.
    destruct (comprehension (int_of_char unicode_decimal) (left_pad_last4 pin))
      as [ds|e] eqn:Hc.
    + exfalso. apply Hnot.
      assert (Forall (fun d => exists v, int_of_char unicode_decimal d = Return v)
                (left_pad_last4 pin)) as Hall
        by (apply comprehension_returns; eauto).
      eapply Forall_impl; [|exact Hall]. intros d Hd. apply int_of_char_decimal. exact Hd.
    + destruct (proj1 (comprehension_raises _ _ _) Hc)
        as (before & d & after & Hsplit & Hd & Hbefore).
      pose proof (int_of_char_raises _ _ _ Hd) as ->.
      destruct aud_id as [|a0 aud].
      * exists required_arguments. split; [reflexivity|]. congruence.
      * exists (invalid_literal d). split.
        -- rewrite (Henc _ Hk), pin_digits_of_left_pad, Hc by discriminate.
           reflexivity.
        -- intros _. exists before, d, after.
           split; [exact Hsplit|]. split; [|split; [|reflexivity]].
           ++ eapply Forall_impl; [|exact Hbefore].
              intros d' Hd'. apply int_of_char_decimal. exact Hd'.
           ++ intros Hdec. apply int_of_char_decimal in Hdec.
              destruct Hdec as [v Hv]. rewrite Hv in Hd. discriminate Hd.
Qed.

(** The PIN "12345678" is read as "5678", with the digits 5, 6, 7 and 8;
    the PIN "9x" normalises to "009x" and is refused for its character
    "x". *)
Lemma pin_normalization_witness :
  (length (left_pad_last4 (literal "12345678")) = 4%nat
   /\ pin_digits_of ascii_only (literal "12345678") = Return [5; 6; 7; 8]
   /\ encode_payload ascii_only (literal "MEAM") (literal "abc") (literal "12345678")
      = Return (products (literal "abc") [5; 6; 7; 8] 0 (literal "MEAM"))
   /\ encode_payload ascii_only (literal "MEAM") (literal "abc") (literal "29")
      = encode_payload ascii_only (literal "MEAM") (literal "abc") (literal "0029")
   /\ encode_payload ascii_only (literal "MEAM") (literal "abc") (literal "995329")
      = encode_payload ascii_only (literal "MEAM") (literal "abc") (literal "5329"))
  /\ (exists why,
        encode_payload ascii_only (literal "MEAM") (literal "abc") (literal "9x")
        = Raise (ValueError why)
        /\ exists before d after,
             left_pad_last4 (literal "9x") = before ++ d :: after
             /\ Forall (decimal_character ascii_only) before
             /\ ~ decimal_character ascii_only d
             /\ why = invalid_literal d).
Proof.
  split.
  - destruct (pin_normalization ascii_only (literal "MEAM") (literal "abc")
                (literal "12345678") ltac:(discriminate))
      as (H1 & _ & H3 & _ & H5 & H6 & _ & _ & H9 & _).
    split; [exact H1|]. split; [exact H3|].
    split; [|split; [exact H5|exact H6]].
    apply H9; [discriminate|].
    change (left_pad_last4 (literal "12345678")) with [53%N; 54%N; 55%N; 56%N].
    repeat first [apply Forall_nil | apply Forall_cons; [unfold ascii_digit; lia|]].
  - destruct (pin_normalization ascii_only (literal "MEAM") (literal "abc") (literal "9x")
                ltac:(discriminate))
      as (_ & _ & _ & _ & _ & _ & _ & _ & _ & _ & H11).
    destruct H11 as (why & Hr & Hd).
    + intros H.
      inversion H as [|? ? _ H1]; subst. inversion H1 as [|? ? _ H2]; subst.
      inversion H2 as [|? ? _ H3]; subst. inversion H3 as [|? ? Hx _]; subst.
      destruct Hx as [Hx|[Hx _]]; unfold ascii_digit in *; lia.
    + exists why. split; [exact Hr|]. apply Hd. discriminate.
Defined.

(** ** Store keys *)

(** C8: the store key of a level and an audience id is the string
    "firstlogin_level", the level, "_" and the audience id; for levels among
    1, 2 and 3 two keys are equal exactly when the levels and the audience
    ids are.  The verifier builds the same keys. *)
Theorem store_key (level level' : Z) (aud_id aud_id' : str) :
  In level [1; 2; 3] -> In level' [1; 2; 3] ->
  key_name level aud_id
  = literal "firstlogin_level" ++ [Z.to_N (48 + level)] ++ literal "_" ++ aud_id
  /\ (key_name level aud_id = key_name level' aud_id'
      <-> level = level' /\ aud_id = aud_id')
  /\ verifier_key_name FULL aud_id = key_name 3 aud_id
  /\ verifier_key_name RESTRICTED aud_id = key_name 2 aud_id
  /\ verifier_key_name BASIC aud_id = key_name 1 aud_id.
Proof.
  intros Hl Hl'.
  split; [|split; [|repeat split; reflexivity]].
  - simpl in Hl. destruct Hl as [<-|[<-|[<-|[]]]]; reflexivity.
  - split.
    + simpl in Hl, Hl'.
      destruct Hl as [<-|[<-|[<-|[]]]]; destruct Hl' as [<-|[<-|[<-|[]]]];
        unfold key_name; intros H; apply app_inv_head in H;
        vm_compute in H; try discriminate H;
        injection H as <-; split; reflexivity.
    + intros [<- <-]. reflexivity.
Qed.

Lemma store_key_witness :
  key_name 3 (literal "abc")
  = literal "firstlogin_level" ++ [Z.to_N (48 + 3)] ++ literal "_" ++ literal "abc"
  /\ (key_name 3 (literal "abc") = key_name 2 (literal "abc")
      <-> 3 = 2 /\ literal "abc" = literal "abc")
  /\ verifier_key_name FULL (literal "abc") = key_name 3 (literal "abc")
  /\ verifier_key_name RESTRICTED (literal "abc") = key_name 2 (literal "abc")
  /\ verifier_key_name BASIC (literal "abc") = key_name 1 (literal "abc").
Proof.
  apply (store_key 3 2 (literal "abc") (literal "abc")); simpl; auto.
Defined.

(** ** Rejected key material *)

(** C9: [encode_payload] raises its [ValueError] on the empty audience id,
    whatever the payload and the PIN, and so does the generator built on
    it; [main] exits with status 1 on an audience id of fewer than 10
    characters, whatever its other arguments, before any encoding. *)
Theorem invalid_key_material (unicode_decimal : codepoint -> option decimal_digit) :
  (forall payload pin,
      encode_payload unicode_decimal payload [] pin
      = Raise (ValueError required_arguments))
  /\ (forall level,
        In level [1; 2; 3] ->
        generate_firstlogin_array unicode_decimal level []
        = Raise (ValueError required_arguments))
  /\ (forall args,
        len (arg_aud args) < 10 -> main unicode_decimal args = SystemExit 1)
  /\ (forall args,
        main unicode_decimal args <> SystemExit 1 ->
        10 <= len (arg_aud args)
        /\ exists encoded_array,
             generate_firstlogin_array unicode_decimal (arg_level args) (arg_aud args)
             = Return (key_name (arg_level args) (arg_aud args), encoded_array)).
Proof.
  split; [reflexivity|]. split; [|split].
  - intros level Hl. simpl in Hl.
    destruct Hl as [<-|[<-|[<-|[]]]]; reflexivity.
  - intros args Hshort. unfold main.
    destruct (Z.ltb_spec (len (arg_aud args)) 10) as [_|]; [|lia].
    rewrite orb_true_r. reflexivity.
  - intros args Hrun. unfold main in Hrun.
    destruct (Z.ltb_spec (len (arg_aud args)) 10) as [|Hlong].
    + rewrite orb_true_r in Hrun. congruence.
    + split; [exact Hlong|].
      destruct (is_empty (arg_aud args)); [simpl in Hrun; congruence|].
      cbn [orb] in Hrun.
      destruct (generate_firstlogin_array unicode_decimal (arg_level args) (arg_aud args))
        as [[key encoded_array]|e] eqn:Hg; [|congruence].
      exists encoded_array.
      rewrite (generate_firstlogin_array_key _ _ _ _ _ Hg). reflexivity.
Qed.

(** ** Totality of the decoder *)

(** C10, as stated, fails on the code: with a non-empty audience id and a
    PIN of four digits the decoder raises [ZeroDivisionError] when the
    selected audience character has code point zero, and [OverflowError]
    when the float division overflows; neither is a decoded string or an
    integrity error. *)
Lemma decode_totality_counterexample :
  ([0%N] <> []
   /\ pin_digits_of ascii_only (literal "1234") = Return [1; 2; 3; 4]
   /\ decode_payload ascii_only [65] [0%N] (literal "1234") = Raise ZeroDivisionError)
  /\ (literal "a" <> []
      /\ decode_payload ascii_only [10 ^ 400] (literal "a") (literal "1234")
         = Raise OverflowError).
Proof. repeat split; try discriminate; vm_compute; reflexivity. Qed.

(** C10 (amended): [decode_payload] does not validate its key material.
    For a PIN that normalises to four decimal digits: with a non-empty
    audience id of valid, non-zero code points, on every integer array
    whose elements are below [2^1023] in magnitude it returns a string of
    printable characters or the error of a position of the array; with the
    empty audience id and a non-empty array it raises [ZeroDivisionError],
    from the audience index of position 0. *)
Theorem decode_totality (unicode_decimal : codepoint -> option decimal_digit)
    (encoded_array : list Z) (aud_id pin : str) (pin_digits : list Z) :
  pin_digits_of unicode_decimal pin = Return pin_digits ->
  (aud_id <> [] -> no_nul aud_id -> valid_str aud_id ->
   Forall (fun x => Z.abs x < 2 ^ 1023) encoded_array ->
   (exists s, printable s
      /\ decode_payload unicode_decimal encoded_array aud_id pin = Return (Joined s))
   \/ (exists i char_ascii,
         0 <= i < len encoded_array
         /\ decode_payload unicode_decimal encoded_array aud_id pin
            = Return (DECODE_ERROR i char_ascii)))
  /\ (aud_id = [] -> encoded_array <> [] ->
      py_mod (BASE_OFFSET + 0) (len aud_id) = Raise ZeroDivisionError
      /\ decode_payload unicode_decimal encoded_array aud_id pin
         = Raise ZeroDivisionError).
Proof.
  intros Hpin. rewrite (decode_payload_loop _ _ _ _ _ Hpin). split.
  - intros Ha Hn Hv Hsmall.
    pose proof (pin_digits_of_decimal _ _ _ Hpin) as Hd.
    destruct (decode_loop_total aud_id pin_digits encoded_array 0 []
                Ha Hn Hv Hd ltac:(constructor) Hsmall)
      as [Hs|(i & v & Hi & Hr)]; [left; exact Hs|right].
    exists i, v. split; [lia|exact Hr].
  - intros -> Hne. split; [reflexivity|].
    destruct encoded_array as [|x rest]; [congruence|]. reflexivity.
Qed.

Lemma decode_totality_witness :
  ((exists s, printable s
      /\ decode_payload ascii_only [37730; 20493; 12611] (literal "abc") (literal "5329")
         = Return (Joined s))
   \/ (exists i char_ascii,
         0 <= i < len [37730; 20493; 12611]
         /\ decode_payload ascii_only [37730; 20493; 12611] (literal "abc") (literal "5329")
            = Return (DECODE_ERROR i char_ascii)))
  /\ (py_mod (BASE_OFFSET + 0) (len (@nil codepoint)) = Raise ZeroDivisionError
      /\ decode_payload ascii_only [37730] [] (literal "5329")
         = Raise ZeroDivisionError).
Proof.
  split.
  - apply (decode_totality ascii_only [37730; 20493; 12611] (literal "abc")
             (literal "5329") [5; 3; 2; 9]);
      [reflexivity | discriminate | chars | chars |].
    repeat first [apply Forall_nil | apply Forall_cons; [vm_compute; reflexivity|]].
  - apply (decode_totality ascii_only [37730] [] (literal "5329") [5; 3; 2; 9]);
      [reflexivity | reflexivity | discriminate].
Defined.

(** ** Scenarios *)

(** The generator's array for level 3 decodes, under the verifier's audience
    id of the FULL tier and the PIN "5329", to the payload of that tier. *)
Example scenario_level_3 :
  (generated <- generate_firstlogin_array ascii_only 3
                  (literal "2a1cae831a8b85fb7847b7aeedf2075cbe37316002f31ef308ebd5d4e5094e0d") ;;
   decode_payload ascii_only (snd generated)
     (literal "2a1cae831a8b85fb7847b7aeedf2075cbe37316002f31ef308ebd5d4e5094e0d")
     (literal "5329"))%py
  = Return
      (Joined
         (literal "MEAM https://z3c9h1-qs7f5l2p8.johan-351.workers.dev tier3@meam-firstlogin.internal")).
Proof. vm_compute. reflexivity. Qed.

(** The same array under the PIN "5328", wrong in its last digit, stops at
    position 3, the first position that uses that digit: the quotient there
    is 86.625. *)
Example scenario_wrong_pin :
  (generated <- generate_firstlogin_array ascii_only 3
                  (literal "2a1cae831a8b85fb7847b7aeedf2075cbe37316002f31ef308ebd5d4e5094e0d") ;;
   decode_payload ascii_only (snd generated)
     (literal "2a1cae831a8b85fb7847b7aeedf2075cbe37316002f31ef308ebd5d4e5094e0d")
     (literal "5328"))%py
  = Return (DECODE_ERROR 3 (S754_finite false 6095692464390144 (-46))).
Proof. vm_compute. reflexivity. Qed.

(** A PIN digit 0 multiplies by 10. *)
Example scenario_zero_digit :
  pin_multiplier_at [5; 0; 2; 9] 1 = 10
  /\ encode_payload ascii_only (literal "MEAM") (literal "abc") (literal "5029")
     = Return [37730; 68310; 12610; 67914].
Proof. split; vm_compute; reflexivity. Qed.

(** * Further properties of the transform *)
Module TransformFacts.

Lemma products_app (aud_id : str) (pin_digits : list Z) (start : Z) (p q : str) :
  products aud_id pin_digits start (p ++ q)
  = products aud_id pin_digits start p
    ++ products aud_id pin_digits (start + len p) q.
Proof.
  revert start. induction p as [|c p IH]; intros start; simpl.
  - unfold len. simpl. rewrite Z.add_0_r. reflexivity.
  - rewrite IH. do 3 f_equal. unfold len. simpl length. lia.
Qed.

Lemma products_injective (aud_id : str) (pin_digits : list Z) (start : Z) (p q : str) :
  aud_id <> [] -> no_nul aud_id -> decimal_digits pin_digits ->
  products aud_id pin_digits start p = products aud_id pin_digits start q ->
  p = q.
Proof.
  intros Ha Hn Hd. revert start q.
  induction p as [|c p IH]; intros start [|d q] H; simpl in H;
    try discriminate; [reflexivity|].
  injection H as Hhead Htail.
  pose proof (divisor_at_pos aud_id pin_digits start Ha Hn Hd) as Hpos.
  unfold divisor_at in Hpos.
  rewrite <- !Z.mul_assoc in Hhead.
  apply Z.mul_reg_r in Hhead; [|lia].
  unfold ord in Hhead. apply N2Z.inj in Hhead. subst d.
  f_equal. eapply IH. exact Htail.
Qed.

Lemma products_bounds (aud_id : str) (pin_digits : list Z) (start : Z) (p : str) :
  aud_id <> [] -> valid_str aud_id -> valid_str p -> decimal_digits pin_digits ->
  Forall (fun x => 0 <= x < 2 ^ 44) (products aud_id pin_digits start p).
Proof.
  intros Ha Hv Hp Hd. revert start.
  induction Hp as [|c p Hc Hrest IH]; intros start; simpl; constructor.
  - destruct (aud_ascii_at_bounds aud_id start Ha) as (H0 & _ & H1).
    specialize (H1 Hv).
    pose proof (pin_multiplier_at_bounds pin_digits start Hd) as Hm.
    unfold valid_codepoint in Hc.
    assert (0 <= ord c < 1114112) as Ho by (unfold ord; lia).
    change (2 ^ 44) with 17592186044416.
    assert (0 <= ord c * aud_ascii_at aud_id start <= 1114111 * 1114111) by nia.
    nia.
  - apply IH.
Qed.

(** The decoding loop returns a string only on the products of that
    string. *)
Lemma decode_loop_joined (aud_id : str) (pin_digits : list Z)
    (encoded_array : list Z) (start : Z) (decoded_chars s : str) :
  aud_id <> [] -> no_nul aud_id -> valid_str aud_id -> decimal_digits pin_digits ->
  decode_loop aud_id pin_digits (enumerate_from start encoded_array) decoded_chars
  = Return (Joined s) ->
  exists chars,
    s = decoded_chars ++ chars /\ printable chars
    /\ encoded_array = products aud_id pin_digits start chars.
Proof.
  intros Ha Hn Hv Hd. revert start decoded_chars.
  induction encoded_array as [|x rest IH]; intros start acc H.
  - cbn in H. injection H as <-. exists []. rewrite app_nil_r.
    split; [reflexivity|]. split; [constructor|reflexivity].
  - cbn [enumerate_from] in H.
    destruct (decode_loop_step aud_id pin_digits start x
                (enumerate_from (start + 1) rest) acc Ha Hn Hv Hd)
      as [(c & Hc & Hx & Hloop)|[[_ Hloop]|(v & _ & _ & Hloop)]];
      rewrite Hloop in H; try discriminate H.
    destruct (IH _ _ H) as (chars & Hs & Hp & Hrest).
    exists (Z.to_N c :: chars). split; [|split].
    + rewrite Hs, <- app_assoc. reflexivity.
    + constructor; [lia|exact Hp].
    + simpl. rewrite <- Hrest, Hx. unfold divisor_at, ord.
      rewrite Z2N.id by lia. f_equal. ring.
Qed.

Lemma decode_payload_joined (unicode_decimal : codepoint -> option decimal_digit)
    (encoded_array : list Z) (aud_id pin s : str) :
  aud_id <> [] -> no_nul aud_id -> valid_str aud_id -> pin <> [] ->
  decode_payload unicode_decimal encoded_array aud_id pin = Return (Joined s) ->
  printable s
  /\ encode_payload unicode_decimal s aud_id pin = Return encoded_array.
Proof.
  intros Ha Hn Hv Hk Hdec.
  destruct (pin_digits_of unicode_decimal pin) as [pin_digits|e] eqn:Hpin.
  - rewrite (decode_payload_loop _ _ _ _ _ Hpin) in Hdec.
    pose proof (pin_digits_of_decimal _ _ _ Hpin) as Hd.
    destruct (decode_loop_joined _ _ _ _ _ _ Ha Hn Hv Hd Hdec)
      as (chars & -> & Hp & ->).
    split; [exact Hp|].
    apply encode_payload_products; assumption.
  - unfold decode_payload in Hdec. rewrite Hpin in Hdec. discriminate Hdec.
Qed.

End TransformFacts.

Import TransformFacts.

(** ** Only encodings decode *)

(** X1: with a non-empty audience id of valid, non-zero code points and a
    non-empty PIN, [decode_payload] returns a string only on the array that
    [encode_payload] returns for that string, and the string is printable:
    whatever the size of the elements, no other array decodes. *)
Theorem decode_only_encodings (unicode_decimal : codepoint -> option decimal_digit)
    (encoded_array : list Z) (aud_id pin s : str) :
  aud_id <> [] -> no_nul aud_id -> valid_str aud_id -> pin <> [] ->
  decode_payload unicode_decimal encoded_array aud_id pin = Return (Joined s) ->
  printable s
  /\ encode_payload unicode_decimal s aud_id pin = Return encoded_array.
Proof. apply decode_payload_joined. Qed.

Lemma decode_only_encodings_witness :
  printable (literal "MEAM")
  /\ encode_payload ascii_only (literal "MEAM") (literal "abc") (literal "5329")
     = Return [37730; 20493; 12610; 67914].
Proof.
  apply (decode_only_encodings ascii_only [37730; 20493; 12610; 67914]
           (literal "abc") (literal "5329") (literal "MEAM"));
    [discriminate | chars | chars | discriminate | vm_compute; reflexivity].
Defined.

(** ** Distinct payloads encode differently *)

(** X2: under an audience id without a zero code point, two payloads with
    the same encoded array, for the same audience id and PIN, are equal. *)
Theorem encode_injective (unicode_decimal : codepoint -> option decimal_digit)
    (payload payload' aud_id pin : str) (encoded_array : list Z) :
  no_nul aud_id ->
  encode_payload unicode_decimal payload aud_id pin = Return encoded_array ->
  encode_payload unicode_decimal payload' aud_id pin = Return encoded_array ->
  payload = payload'.
Proof.
  intros Hn H H'.
  destruct (encode_payload_returns _ _ _ _ _ H) as (Ha & Hk & ds & Hds & ->).
  destruct (encode_payload_returns _ _ _ _ _ H') as (_ & _ & ds' & Hds' & Heq).
  rewrite Hds in Hds'. injection Hds' as <-.
  apply (products_injective aud_id ds 0);
    [exact Ha | exact Hn | eapply pin_digits_of_decimal; eassumption | exact Heq].
Qed.

Lemma encode_injective_witness : literal "MEAM" = literal "MEAM".
Proof.
  apply (encode_injective ascii_only (literal "MEAM") (literal "MEAM")
           (literal "abc") (literal "5329") [37730; 20493; 12610; 67914]);
    [chars | reflexivity | reflexivity].
Defined.

(** ** Characters that encode and never decode *)

(** X3: [encode_payload] accepts a payload with a character outside
    [32,126]; on the array it returns, [decode_payload] with the same
    audience id (of valid, non-zero code points) and PIN returns the error
    of the position of the first such character. *)
Theorem nonprintable_detected (unicode_decimal : codepoint -> option decimal_digit)
    (before : str) (c : codepoint) (after aud_id pin : str) (pin_digits : list Z) :
  printable before -> ~ (32 <= c <= 126)%N -> valid_codepoint c ->
  aud_id <> [] -> no_nul aud_id -> valid_str aud_id ->
  pin <> [] -> pin_digits_of unicode_decimal pin = Return pin_digits ->
  exists encoded_array char_ascii,
    encode_payload unicode_decimal (before ++ c :: after) aud_id pin
    = Return encoded_array
    /\ decode_payload unicode_decimal encoded_array aud_id pin
       = Return (DECODE_ERROR (len before) char_ascii).
Proof.
  intros Hp Hc Hvc Ha Hn Hv Hk Hpin.
  pose proof (pin_digits_of_decimal _ _ _ Hpin) as Hd.
  exists (products aud_id pin_digits 0 (before ++ c :: after)).
  rewrite (encode_payload_products _ _ _ _ _ Ha Hk Hpin).
  rewrite products_app. cbn [products]. rewrite Z.add_0_l.
  set (pre := products aud_id pin_digits 0 before).
  set (x := ord c * aud_ascii_at aud_id (len before)
            * pin_multiplier_at pin_digits (len before)).
  assert (len pre = len before) as Hlen
    by (unfold len, pre; rewrite products_length; reflexivity).
  pose proof (divisor_at_bounds aud_id pin_digits (len before) Ha Hn Hv Hd) as Hb.
  assert (x = ord c * divisor_at aud_id pin_digits (len before)) as Hx
    by (unfold x, divisor_at; ring).
  destruct (decode_payload_first_invalid unicode_decimal pre x
              (products aud_id pin_digits (len before + 1) after)
              aud_id pin pin_digits Ha Hn Hv Hpin)
    as [[Hbig _]|(v & _ & _ & Hdec)].
  - intros j y Hj. unfold pre in Hj. rewrite products_nth_error in Hj.
    destruct (nth_error before j) as [b|] eqn:Hb'; [|discriminate].
    cbn [option_map] in Hj. injection Hj as <-.
    exists (ord b). split.
    + apply nth_error_In in Hb'.
      pose proof (proj1 (Forall_forall _ before) Hp b Hb') as Hr.
      cbv beta in Hr. unfold ord. lia.
    + unfold divisor_at. rewrite ?Z.add_0_l. ring.
  - rewrite Hlen. intros (c' & Hc' & Hxc). rewrite Hx in Hxc.
    apply Z.mul_reg_r in Hxc; [|lia]. unfold ord in Hxc. lia.
  - exfalso. unfold valid_codepoint in Hvc.
    assert (0 <= ord c < 1114112) as Ho by (unfold ord; lia).
    assert (Z.abs x < 2 ^ 44).
    { rewrite Hx. change (2 ^ 44) with 17592186044416.
      change (2 ^ 24) with 16777216 in Hb. rewrite Z.abs_eq by nia. nia. }
    assert (2 ^ 44 < 2 ^ 1023) by (apply Z.pow_lt_mono_r; lia). lia.
  - exists v. split; [reflexivity|]. rewrite Hlen in Hdec. exact Hdec.
Qed.

Lemma nonprintable_detected_witness :
  exists encoded_array char_ascii,
    encode_payload ascii_only (literal "ME" ++ 10%N :: literal "AM")
      (literal "abc") (literal "5329")
    = Return encoded_array
    /\ decode_payload ascii_only encoded_array (literal "abc") (literal "5329")
       = Return (DECODE_ERROR (len (literal "ME")) char_ascii).
Proof.
  apply (nonprintable_detected ascii_only (literal "ME") 10%N (literal "AM")
           (literal "abc") (literal "5329") [5; 3; 2; 9]);
    [chars | lia | unfold valid_codepoint; lia | discriminate | chars | chars
     | discriminate | reflexivity].
Defined.

(** ** Size of the encoded integers *)

(** X4: for a payload and an audience id of valid code points, every
    element of the array that [encode_payload] returns lies in [0, 2^44):
    it is below [2^53], so the JSON file and binary64 hold it exactly, and
    below the bound under which the decoder's division cannot overflow. *)
Theorem encoded_values_bounded (unicode_decimal : codepoint -> option decimal_digit)
    (payload aud_id pin : str) (encoded_array : list Z) :
  valid_str payload -> valid_str aud_id ->
  encode_payload unicode_decimal payload aud_id pin = Return encoded_array ->
  Forall (fun x => 0 <= x < 2 ^ 44) encoded_array.
Proof.
  intros Hp Hv H.
  destruct (encode_payload_returns _ _ _ _ _ H) as (Ha & Hk & ds & Hds & ->).
  apply products_bounds; try assumption.
  eapply pin_digits_of_decimal; eassumption.
Qed.

Lemma encoded_values_bounded_witness :
  Forall (fun x => 0 <= x < 2 ^ 44) [37730; 20493; 12610; 67914].
Proof.
  apply (encoded_values_bounded ascii_only (literal "MEAM") (literal "abc")
           (literal "5329") [37730; 20493; 12610; 67914]);
    [chars | chars | reflexivity].
Defined.

(** ** Prefixes *)

(** X5: the array of a payload starts with the array of each of its
    prefixes: when [encode_payload] returns an array for [p ++ q], it
    returns for [p] the first [len p] elements of that array. *)
Theorem encode_prefix (unicode_decimal : codepoint -> option decimal_digit)
    (p q aud_id pin : str) (encoded_array : list Z) :
  encode_payload unicode_decimal (p ++ q) aud_id pin = Return encoded_array ->
  encode_payload unicode_decimal p aud_id pin
  = Return (firstn (length p) encoded_array).
Proof.
  intros H.
  destruct (encode_payload_returns _ _ _ _ _ H) as (Ha & Hk & ds & Hds & ->).
  rewrite (encode_payload_products _ _ _ _ _ Ha Hk Hds).
  rewrite products_app.
  rewrite firstn_app, products_length, Nat.sub_diag.
  rewrite firstn_all2 by (rewrite products_length; lia).
  cbn [firstn]. rewrite app_nil_r. reflexivity.
Qed.

Lemma encode_prefix_witness :
  encode_payload ascii_only (literal "ME") (literal "abc") (literal "5329")
  = Return (firstn (length (literal "ME")) [37730; 20493; 12610; 67914]).
Proof.
  apply (encode_prefix ascii_only (literal "ME") (literal "AM") (literal "abc")
           (literal "5329") [37730; 20493; 12610; 67914]).
  reflexivity.
Defined.

(** * The store *)
Module Store.

Lemma str_eqb_eq (s t : str) : str_eqb s t = true <-> s = t.
Proof.
  revert t. induction s as [|c s IH]; intros [|d t]; simpl;
    try (split; [discriminate|discriminate]); [tauto|].
  rewrite andb_true_iff, N.eqb_eq, IH.
  split; [intros [-> ->]; reflexivity|intros H; injection H; auto].
Qed.

Lemma str_eqb_refl (s : str) : str_eqb s s = true.
Proof. apply str_eqb_eq. reflexivity. Qed.

Lemma str_eqb_neq (s t : str) : s <> t -> str_eqb s t = false.
Proof.
  intros H. destruct (str_eqb s t) eqn:E; [|reflexivity].
  apply str_eqb_eq in E. contradiction.
Qed.

Section Dict.

Context {V : Type}.

Lemma dict_get_set_same (data : dict V) (key : str) (value : V) :
  dict_get (dict_set data key value) key = Some value.
Proof.
  induction data as [|[k v] rest IH]; simpl.
  - rewrite str_eqb_refl. reflexivity.
  - destruct (str_eqb k key) eqn:E; simpl; rewrite E; [reflexivity|exact IH].
Qed.

Lemma dict_get_set_other (data : dict V) (key other : str) (value : V) :
  other <> key ->
  dict_get (dict_set data key value) other = dict_get data other.
Proof.
  intros Hne. induction data as [|[k v] rest IH]; simpl.
  - rewrite str_eqb_neq by congruence. reflexivity.
  - destruct (str_eqb k key) eqn:E; simpl.
    + apply str_eqb_eq in E. subst k.
      rewrite str_eqb_neq by congruence. reflexivity.
    + rewrite IH. reflexivity.
Qed.

Lemma dict_get_In (data : dict V) (key : str) :
  dict_get data key <> None <-> In key (keys data).
Proof.
  induction data as [|[k v] rest IH]; simpl.
  - tauto.
  - destruct (str_eqb k key) eqn:E.
    + apply str_eqb_eq in E. split; [auto|discriminate].
    + rewrite IH. split; [auto|].
      intros [H|H]; [|exact H]. subst k. rewrite str_eqb_refl in E. discriminate.
Qed.

Lemma keys_set_present (data : dict V) (key : str) (value : V) :
  In key (keys data) -> keys (dict_set data key value) = keys data.
Proof.
  induction data as [|[k v] rest IH]; simpl; [tauto|].
  intros H. destruct (str_eqb k key) eqn:E; simpl; [reflexivity|].
  f_equal. apply IH. destruct H as [H|H]; [|exact H].
  subst k. rewrite str_eqb_refl in E. discriminate.
Qed.

Lemma keys_set_absent (data : dict V) (key : str) (value : V) :
  ~ In key (keys data) -> keys (dict_set data key value) = keys data ++ [key].
Proof.
  induction data as [|[k v] rest IH]; simpl; [reflexivity|].
  intros H. destruct (str_eqb k key) eqn:E; simpl.
  - apply str_eqb_eq in E. tauto.
  - f_equal. apply IH. tauto.
Qed.

Lemma unique_keys_set (data : dict V) (key : str) (value : V) :
  unique_keys data -> unique_keys (dict_set data key value).
Proof.
  unfold unique_keys. intros H.
  destruct (in_dec (list_eq_dec N.eq_dec) key (keys data)) as [Hin|Hout].
  - rewrite keys_set_present by exact Hin. exact H.
  - rewrite keys_set_absent by exact Hout.
    apply NoDup_app; [exact H|repeat constructor; simpl; tauto|].
    intros k Hk [<-|[]]. contradiction.
Qed.

Lemma dict_set_twice (data : dict V) (key : str) (value value' : V) :
  dict_set (dict_set data key value) key value' = dict_set data key value'.
Proof.
  induction data as [|[k v] rest IH]; simpl.
  - rewrite str_eqb_refl. reflexivity.
  - destruct (str_eqb k key) eqn:E; simpl; rewrite E; [reflexivity|].
    rewrite IH. reflexivity.
Qed.

End Dict.

End Store.

Import Store.

(** ** Lookup after an update *)

(** X6: after [update_somenumbers_json] the document holds the array under
    the key, and every other key has the value it had in the loaded file,
    or in the initial document [{"somenumbers": []}] when there was no
    file: no other entry is changed, added or removed. *)
Theorem update_lookup (key : str) (encoded_array : list Z) (file : option document) :
  dict_get (update_somenumbers_json key encoded_array file) key
  = Some encoded_array
  /\ forall other,
       other <> key ->
       dict_get (update_somenumbers_json key encoded_array file) other
       = match file with
         | Some loaded => dict_get loaded other
         | None => if str_eqb (literal "somenumbers") other then Some [] else None
         end.
Proof.
  unfold update_somenumbers_json. split.
  - apply dict_get_set_same.
  - intros other Hne. rewrite dict_get_set_other by exact Hne.
    destruct file; reflexivity.
Qed.

(** ** Keys of the store *)

(** X7: [update_somenumbers_json] never deletes a key.  A key already in
    the loaded document keeps its place, and the key list is unchanged; a
    new key is appended, so the document has one key more; and keys that
    were distinct stay distinct. *)
Theorem update_keys (key : str) (encoded_array : list Z) (loaded : document) :
  (In key (keys loaded) ->
   keys (update_somenumbers_json key encoded_array (Some loaded)) = keys loaded)
  /\ (~ In key (keys loaded) ->
      keys (update_somenumbers_json key encoded_array (Some loaded))
      = keys loaded ++ [key])
  /\ (forall k, In k (keys loaded) ->
                In k (keys (update_somenumbers_json key encoded_array (Some loaded))))
  /\ (unique_keys loaded ->
      unique_keys (update_somenumbers_json key encoded_array (Some loaded)))
  /\ (length loaded
      <= length (update_somenumbers_json key encoded_array (Some loaded))
      <= length loaded + 1)%nat.
Proof.
  unfold update_somenumbers_json.
  assert (forall data : document, length data = length (keys data)) as Hlen
    by (intros; unfold keys; rewrite length_map; reflexivity).
  split; [apply keys_set_present|]. split; [apply keys_set_absent|].
  split; [|split; [apply unique_keys_set|]].
  - intros k Hk.
    destruct (in_dec (list_eq_dec N.eq_dec) key (keys loaded)) as [Hin|Hout].
    + rewrite keys_set_present by exact Hin. exact Hk.
    + rewrite keys_set_absent by exact Hout. apply in_or_app. left. exact Hk.
  - rewrite !Hlen.
    destruct (in_dec (list_eq_dec N.eq_dec) key (keys loaded)) as [Hin|Hout].
    + rewrite keys_set_present by exact Hin. lia.
    + rewrite keys_set_absent by exact Hout. rewrite length_app. simpl. lia.
Qed.

(** ** Last write wins *)

(** X8: two updates of the same key leave the document that the second
    update alone gives: the earlier array is overwritten, whatever it was. *)
Theorem update_last_write_wins (key : str) (first second : list Z)
    (file : option document) :
  update_somenumbers_json key second
    (Some (update_somenumbers_json key first file))
  = update_somenumbers_json key second file.
Proof. unfold update_somenumbers_json. apply dict_set_twice. Qed.

(** ** Updates of different keys *)

(** X9: updates of two different keys give, in either order, documents with
    the same value under every key. *)
Theorem update_order_irrelevant (key key' : str) (encoded_array encoded_array' : list Z)
    (file : option document) (k : str) :
  key <> key' ->
  dict_get
    (update_somenumbers_json key' encoded_array'
       (Some (update_somenumbers_json key encoded_array file))) k
  = dict_get
      (update_somenumbers_json key encoded_array
         (Some (update_somenumbers_json key' encoded_array' file))) k.
Proof.
  intros Hne. unfold update_somenumbers_json.
  set (data := match file with
               | Some loaded => loaded
               | None => [(literal "somenumbers", [])]
               end).
  destruct (list_eq_dec N.eq_dec k key') as [->|Hk'].
  - rewrite dict_get_set_same.
    rewrite dict_get_set_other by congruence.
    rewrite dict_get_set_same. reflexivity.
  - rewrite (dict_get_set_other _ key' k) by exact Hk'.
    destruct (list_eq_dec N.eq_dec k key) as [->|Hk].
    + rewrite !dict_get_set_same. reflexivity.
    + rewrite !dict_get_set_other by assumption. reflexivity.
Qed.

Lemma update_order_irrelevant_witness :
  dict_get
    (update_somenumbers_json (key_name 2 (literal "abc")) [2]
       (Some (update_somenumbers_json (key_name 3 (literal "abc")) [3] None)))
    (key_name 3 (literal "abc"))
  = dict_get
      (update_somenumbers_json (key_name 3 (literal "abc")) [3]
         (Some (update_somenumbers_json (key_name 2 (literal "abc")) [2] None)))
      (key_name 3 (literal "abc")).
Proof.
  apply (update_order_irrelevant (key_name 3 (literal "abc")) (key_name 2 (literal "abc"))
           [3] [2] None (key_name 3 (literal "abc"))).
  vm_compute. discriminate.
Defined.

(** ** The legacy key *)

(** X10: storing an array under the key of any level and audience id
    leaves the entry "somenumbers" as it was, and creates it empty when
    there was no file: a first-login key is never the legacy key. *)
Theorem legacy_key_untouched (level : Z) (aud_id : str) (encoded_array : list Z)
    (file : option document) :
  key_name level aud_id <> literal "somenumbers"
  /\ dict_get (update_somenumbers_json (key_name level aud_id) encoded_array file)
       (literal "somenumbers")
     = match file with
       | Some loaded => dict_get loaded (literal "somenumbers")
       | None => Some []
       end.
Proof.
  assert (key_name level aud_id <> literal "somenumbers") as Hne
    by (unfold key_name; simpl; discriminate).
  split; [exact Hne|].
  unfold update_somenumbers_json.
  rewrite dict_get_set_other by congruence.
  destruct file; reflexivity.
Qed.

(** * The generator and the verifier *)
Module Programs.

Lemma levels_cases (level : Z) : In level [1; 2; 3] -> level = 1 \/ level = 2 \/ level = 3.
Proof. simpl. intuition. Qed.

Lemma worker_url_of_other_levels (level : Z) :
  ~ In level [1; 2; 3] -> WORKER_URLS level = None.
Proof.
  intros H.
  destruct level as [|[[p|p|]|[p|p|]|]|p]; try reflexivity;
    exfalso; apply H; simpl; auto.
Qed.

(** ** [print] *)

Lemma no_surrogate_existsb (s : str) :
  existsb is_surrogate s = false <-> no_surrogate s.
Proof.
  unfold no_surrogate. rewrite Forall_forall. split.
  - intros H c Hc. destruct (is_surrogate c) eqn:E; [|reflexivity].
    assert (existsb is_surrogate s = true) as H' by (apply existsb_exists; eauto).
    rewrite H in H'. discriminate H'.
  - intros H. destruct (existsb is_surrogate s) eqn:E; [|reflexivity].
    apply existsb_exists in E. destruct E as (c & Hc & E).
    rewrite (H c Hc) in E. discriminate E.
Qed.

Lemma no_surrogate_app (s t : str) :
  no_surrogate (s ++ t) <-> no_surrogate s /\ no_surrogate t.
Proof. apply Forall_app. Qed.

Lemma no_surrogate_firstn (n : nat) (s : str) :
  no_surrogate s -> no_surrogate (firstn n s).
Proof.
  intros H. rewrite <- (firstn_skipn n s) in H.
  apply no_surrogate_app in H. apply H.
Qed.

Lemma no_surrogate_last_chars (n : nat) (s : str) :
  no_surrogate s -> no_surrogate (last_chars n s).
Proof.
  intros H. unfold last_chars.
  rewrite <- (firstn_skipn (length s - n) s) in H.
  apply no_surrogate_app in H. apply H.
Qed.

Lemma print_returns (s : str) : no_surrogate s -> print s = Return tt.
Proof.
  intros H. unfold print. rewrite (proj2 (no_surrogate_existsb s) H). reflexivity.
Qed.

Lemma print_raises (s : str) : ~ no_surrogate s -> print s = Raise UnicodeEncodeError.
Proof.
  intros H. unfold print. destruct (existsb is_surrogate s) eqn:E; [reflexivity|].
  exfalso. apply H. apply no_surrogate_existsb. exact E.
Qed.

Lemma print_cases (s : str) : print s = Return tt \/ print s = Raise UnicodeEncodeError.
Proof. unfold print. destruct (existsb is_surrogate s); auto. Qed.

(** Solves [no_surrogate] on a text built from literals and from parts of
    a string [Hs] is about. *)
Ltac encodable Hs :=
  unfold key_name;
  repeat (apply no_surrogate_app; split);
  first [ exact Hs
        | apply no_surrogate_firstn; exact Hs
        | apply no_surrogate_last_chars; exact Hs
        | apply no_surrogate_existsb; vm_compute; reflexivity ].

(** The two cases of [generate_returns] for one level: the literal texts
    are printed, the encoding returns the products, and the two texts with
    the audience id decide. *)
Ltac generate_level unicode_decimal aud_id pin pin_digits Ha :=
  unfold generate_firstlogin_array;
  cbn [WORKER_URLS lookup BOOTSTRAP_PINS TIER_NAMES bind];
  printed;
  rewrite (encode_payload_products unicode_decimal _ aud_id pin pin_digits Ha
             ltac:(discriminate) eq_refl);
  cbn [bind]; unfold len; rewrite products_length; printed;
  split; intros Hs;
  [ rewrite print_returns by encodable Hs; cbn [bind];
    rewrite print_returns by encodable Hs; reflexivity
  | match goal with
    | |- bind (print ?s) _ = _ =>
        let E := fresh "E" in
        destruct (print_cases s) as [E|E]; rewrite E; cbn [bind]; [|reflexivity]
    end;
    rewrite print_raises; [reflexivity|];
    let H := fresh "H" in
    intros H; apply Hs; unfold key_name in H;
    repeat (apply no_surrogate_app in H; destruct H as [_ H]);
    exact H ].

(** ** The generator *)

(** What the generator does for a level of its tables: it returns when its
    console can encode the audience id, and raises [UnicodeEncodeError]
    when it cannot, at line 130 or at line 139. *)
Lemma generate_returns (unicode_decimal : codepoint -> option decimal_digit)
    (level : Z) (aud_id : str) :
  In level [1; 2; 3] -> aud_id <> [] ->
  exists payload pin pin_digits,
    payload_of_level level = Some payload
    /\ BOOTSTRAP_PINS level = Some pin
    /\ pin <> []
    /\ pin_digits_of unicode_decimal pin = Return pin_digits
    /\ printable payload
    /\ length payload = 82%nat
    /\ (no_surrogate aud_id ->
        generate_firstlogin_array unicode_decimal level aud_id
        = Return (key_name level aud_id, products aud_id pin_digits 0 payload))
    /\ (~ no_surrogate aud_id ->
        generate_firstlogin_array unicode_decimal level aud_id
        = Raise UnicodeEncodeError).
Proof.
  intros Hl Ha.
  destruct (levels_cases level Hl) as [-> | [-> | ->]].
  - exists (literal "MEAM https://h7p3w5-xd1q6e4z8.johan-351.workers.dev tier1@meam-firstlogin.internal"),
           (literal "5129"), [5; 1; 2; 9].
    split; [reflexivity|]. split; [reflexivity|]. split; [discriminate|].
    split; [reflexivity|]. split; [chars|]. split; [reflexivity|].
    generate_level unicode_decimal aud_id (literal "5129") [5; 1; 2; 9] Ha.
  - exists (literal "MEAM https://m4v8k2-rb6n0t3y9.johan-351.workers.dev tier2@meam-firstlogin.internal"),
           (literal "5229"), [5; 2; 2; 9].
    split; [reflexivity|]. split; [reflexivity|]. split; [discriminate|].
    split; [reflexivity|]. split; [chars|]. split; [reflexivity|].
    generate_level unicode_decimal aud_id (literal "5229") [5; 2; 2; 9] Ha.
  - exists (literal "MEAM https://z3c9h1-qs7f5l2p8.johan-351.workers.dev tier3@meam-firstlogin.internal"),
           (literal "5329"), [5; 3; 2; 9].
    split; [reflexivity|]. split; [reflexivity|]. split; [discriminate|].
    split; [reflexivity|]. split; [chars|]. split; [reflexivity|].
    generate_level unicode_decimal aud_id (literal "5329") [5; 3; 2; 9] Ha.
Qed.

Lemma decode_products (unicode_decimal : codepoint -> option decimal_digit)
    (payload aud_id pin : str) (pin_digits : list Z) :
  printable payload -> aud_id <> [] -> no_nul aud_id ->
  pin_digits_of unicode_decimal pin = Return pin_digits ->
  decode_payload unicode_decimal (products aud_id pin_digits 0 payload) aud_id pin
  = Return (Joined payload).
Proof.
  intros Hp Ha Hn Hpin.
  rewrite (decode_payload_loop _ _ _ _ _ Hpin).
  rewrite decode_loop_products; try assumption; [reflexivity|].
  eapply pin_digits_of_decimal; eassumption.
Qed.

Lemma len_nonempty {A : Type} (s : list A) : 1 <= len s -> s <> [].
Proof. intros H ->. unfold len in H. simpl in H. lia. Qed.

Lemma is_empty_false {A : Type} (s : list A) : s <> [] -> is_empty s = false.
Proof. destruct s; [congruence|reflexivity]. Qed.

Lemma verifier_key_name_eq (t : tier) (aud_id : str) :
  verifier_key_name t aud_id = key_name (level_of_tier t) aud_id.
Proof. destruct t; reflexivity. Qed.

Lemma level_of_tier_In (t : tier) : In (level_of_tier t) [1; 2; 3].
Proof. destruct t; simpl; auto. Qed.

(** ** [startswith] and [split] *)

Lemma startswith_app (s prefix : str) :
  startswith s prefix = true <-> exists rest, s = prefix ++ rest.
Proof.
  revert s. induction prefix as [|p prefix IH]; intros [|c s]; simpl.
  - split; [eauto|reflexivity].
  - split; [eauto|reflexivity].
  - split; [discriminate|]. intros [rest H]. discriminate H.
  - rewrite andb_true_iff, N.eqb_eq, IH. split.
    + intros [-> [rest ->]]. eauto.
    + intros [rest H]. injection H as -> ->. eauto.
Qed.

(** A word being read is a prefix of the first field. *)
Lemma split_loop_word (unicode_space : codepoint -> bool) (s word : str) :
  word <> [] ->
  exists more fields, split_loop unicode_space s word = (word ++ more) :: fields.
Proof.
  revert word. induction s as [|c s IH]; intros word Hw; simpl.
  - rewrite is_empty_false by exact Hw. exists [], []. rewrite app_nil_r. reflexivity.
  - destruct (isspace unicode_space c).
    + rewrite is_empty_false by exact Hw. exists [], (split_loop unicode_space s []).
      rewrite app_nil_r. reflexivity.
    + destruct (IH (word ++ [c])) as (more & fields & H).
      { intros E. apply app_eq_nil in E. destruct E; discriminate. }
      exists (c :: more), fields. rewrite H, <- app_assoc. reflexivity.
Qed.

(** A text that starts with "MEAM https://" splits into the field "MEAM", a
    field that starts with "https://", and the fields after it. *)
Lemma split_preamble (unicode_space : codepoint -> bool) (rest : str) :
  exists more fields,
    split unicode_space (literal "MEAM https://" ++ rest)
    = literal "MEAM" :: (literal "https://" ++ more) :: fields.
Proof.
  destruct (split_loop_word unicode_space rest (literal "https://") ltac:(discriminate))
    as (more & fields & H).
  exists more, fields. rewrite <- H. reflexivity.
Qed.

(** The verification of a decoded text either fails, or is skipped, or
    reports a preamble that is "MEAM" and a URL field that starts with
    "https://". *)
Lemma verify_format_cases (unicode_space : codepoint -> bool) (t : tier) (d : decoded) :
  verify_format unicode_space t d = VERIFICATION_FAILED d
  \/ (exists s, d = Joined s /\ verify_format unicode_space t d = NO_VERIFICATION s)
  \/ (exists s more email_marker fields,
        d = Joined s
        /\ startswith s (literal "MEAM https://") = true
        /\ split unicode_space s
           = literal "MEAM" :: (literal "https://" ++ more) :: email_marker :: fields
        /\ verify_format unicode_space t d
           = VERIFICATION true (literal "https://" ++ more) email_marker
               (str_eqb email_marker
                  (expected_tier t ++ literal "@meam-firstlogin.internal"))).
Proof.
  destruct d as [s|i v]; [|left; reflexivity].
  unfold verify_format.
  destruct (startswith s (literal "MEAM https://")) eqn:Hs; [|left; reflexivity].
  right. pose proof Hs as Hs'. apply startswith_app in Hs'. destruct Hs' as [rest ->].
  destruct (split_preamble unicode_space rest) as (more & fields & Hsplit).
  destruct fields as [|email_marker fields].
  - left. exists (literal "MEAM https://" ++ rest).
    split; [reflexivity|]. rewrite Hsplit. reflexivity.
  - right. exists (literal "MEAM https://" ++ rest), more, email_marker, fields.
    split; [reflexivity|]. split; [exact Hs|]. split; [exact Hsplit|].
    rewrite Hsplit. reflexivity.
Qed.

Lemma verify_format_not_missing (unicode_space : codepoint -> bool) (t : tier) (d : decoded) :
  verify_format unicode_space t d <> KEY_NOT_FOUND.
Proof.
  destruct (verify_format_cases unicode_space t d)
    as [H|[(s & _ & H)|(s & more & m & fields & _ & _ & _ & H)]];
    rewrite H; discriminate.
Qed.

Lemma verifier_pin_digits (unicode_decimal : codepoint -> option decimal_digit) (t : tier) :
  verifier_BOOTSTRAP_PINS t <> []
  /\ exists pin_digits,
       pin_digits_of unicode_decimal (verifier_BOOTSTRAP_PINS t) = Return pin_digits.
Proof. destruct t; (split; [discriminate|eexists; reflexivity]). Qed.

(** On an array of elements below [2^1023], under a valid audience id, the
    check of a tier returns a report, which is [KEY_NOT_FOUND] exactly when
    the key is missing. *)
Lemma verify_tier_reports (unicode_decimal : codepoint -> option decimal_digit)
    (unicode_space : codepoint -> bool) (data : document) (t : tier) (aud_id : str) :
  aud_id <> [] -> no_nul aud_id -> valid_str aud_id ->
  (forall encoded_array,
      dict_get data (verifier_key_name t aud_id) = Some encoded_array ->
      Forall (fun x => Z.abs x < 2 ^ 1023) encoded_array) ->
  exists r,
    verify_tier unicode_decimal unicode_space data t aud_id = Return r
    /\ (r = KEY_NOT_FOUND <-> dict_get data (verifier_key_name t aud_id) = None).
Proof.
  intros Ha Hn Hv Hsmall. unfold verify_tier.
  destruct (dict_get data (verifier_key_name t aud_id)) as [arr|] eqn:Hget.
  - destruct (verifier_pin_digits unicode_decimal t) as (_ & ds & Hds).
    pose proof (pin_digits_of_decimal _ _ _ Hds) as Hd.
    rewrite (decode_payload_loop _ _ _ _ _ Hds).
    destruct (decode_loop_total aud_id ds arr 0 [] Ha Hn Hv Hd ltac:(constructor)
                (Hsmall arr eq_refl))
      as [(s & _ & Hr)|(i & v & _ & Hr)]; rewrite Hr; cbn [bind];
      eexists; (split; [reflexivity|]);
      (split; [intros E; apply verify_format_not_missing in E; contradiction
              |discriminate]).
  - exists KEY_NOT_FOUND. split; [reflexivity|]. split; reflexivity.
Qed.

(** ** [main] *)



(** The run that reaches [update_somenumbers_json] on a file it can load
    writes the file, and ends as the print of the output path does. *)
Lemma main_effect_updated (unicode_decimal : codepoint -> option decimal_digit)
    (args : arguments) (file : file_content) (key : str) (encoded_array : list Z)
    (loaded : option document) :
  main unicode_decimal args = Updated (arg_output args) key encoded_array ->
  load file = Return loaded ->
  snd (main_effect unicode_decimal args file)
  = Object (update_somenumbers_json key encoded_array loaded)
  /\ (no_surrogate (arg_output args) ->
      fst (main_effect unicode_decimal args file)
      = Updated (arg_output args) key encoded_array)
  /\ (~ no_surrogate (arg_output args) ->
      fst (main_effect unicode_decimal args file) = SystemExit 1).
Proof.
  intros Hm Hl. unfold main_effect. rewrite Hm, Hl. cbv zeta.
  split; [destruct (print _); reflexivity|]. split; intros Hs.
  - rewrite print_returns by encodable Hs. reflexivity.
  - rewrite print_raises; [reflexivity|].
    intros H. apply Hs. apply no_surrogate_app in H. apply H.
Qed.


End Programs.

Import Programs.

(** ** Levels outside the tables *)

(** X11: for a level other than 1, 2 and 3, [generate_firstlogin_array]
    raises the [ValueError] of the level, whatever the audience id, the
    empty one included: the level is checked before the audience id. *)
Theorem generate_rejects_level (unicode_decimal : codepoint -> option decimal_digit)
    (level : Z) (aud_id : str) :
  ~ In level [1; 2; 3] ->
  generate_firstlogin_array unicode_decimal level aud_id
  = Raise (ValueError (invalid_level level)).
Proof.
  intros H. unfold generate_firstlogin_array.
  rewrite worker_url_of_other_levels by exact H. reflexivity.
Qed.

Lemma generate_rejects_level_witness :
  generate_firstlogin_array ascii_only 4 [] = Raise (ValueError (invalid_level 4)).
Proof.
  apply (generate_rejects_level ascii_only 4 []). simpl. intuition discriminate.
Defined.

(** ** What the generator returns *)



(** ** When [main] writes the file *)


(** ** From the generator to the verifier *)

(** X14: after a run of [main] that is not a dry run, for the level of a
    tier and an audience id of at least 10 characters without a zero or a
    surrogate code point, on a path that holds no file or a JSON object,
    the file holds an object on which the verifier's check of that tier
    and audience id finds the generated array under its key, decodes it and
    passes every check: the preamble, the URL of the tier and the email
    marker of the tier.  The run ends with the update when the output path
    holds no surrogate code point. *)
Theorem generated_code_verifies
    (unicode_decimal : codepoint -> option decimal_digit)
    (unicode_space : codepoint -> bool)
    (t : tier) (aud_id output : str) (file : file_content) :
  10 <= len aud_id -> no_nul aud_id -> no_surrogate aud_id ->
  file = Missing \/ (exists data, file = Object data) ->
  exists encoded_array written worker_url,
    snd (main_effect unicode_decimal
           {| arg_level := level_of_tier t; arg_aud := aud_id;
              arg_output := output; arg_dry_run := false |} file)
    = Object written
    /\ (no_surrogate output ->
        fst (main_effect unicode_decimal
               {| arg_level := level_of_tier t; arg_aud := aud_id;
                  arg_output := output; arg_dry_run := false |} file)
        = Updated output (verifier_key_name t aud_id) encoded_array)
    /\ dict_get written (verifier_key_name t aud_id) = Some encoded_array
    /\ WORKER_URLS (level_of_tier t) = Some worker_url
    /\ verify_tier unicode_decimal unicode_space written t aud_id
       = Return
           (VERIFICATION true worker_url
              (expected_tier t ++ literal "@meam-firstlogin.internal") true).
Proof.
  intros Hlen Hn Hs Hfile.
  assert (aud_id <> []) as Ha by (apply len_nonempty; lia).
  set (args := {| arg_level := level_of_tier t; arg_aud := aud_id;
                  arg_output := output; arg_dry_run := false |}).
  destruct (generate_returns unicode_decimal (level_of_tier t) aud_id
              (level_of_tier_In t) Ha)
    as (payload & pin & ds & Hpay & Hpin & _ & Hds & Hp & _ & Hgen & _).
  specialize (Hgen Hs).
  assert (main unicode_decimal args
          = Updated output (key_name (level_of_tier t) aud_id)
              (products aud_id ds 0 payload)) as Hmain.
  { unfold main, args. cbn [arg_aud arg_level arg_output arg_dry_run].
    rewrite is_empty_false by exact Ha.
    destruct (Z.ltb_spec (len aud_id) 10); [lia|].
    cbn [orb]. rewrite Hgen. reflexivity. }
  assert (exists loaded, load file = Return loaded) as [loaded Hload]
    by (destruct Hfile as [->|[data ->]]; eexists; reflexivity).
  destruct (main_effect_updated unicode_decimal args file _ _ loaded Hmain Hload)
    as (Hsnd & Hfst & _).
  assert (verifier_BOOTSTRAP_PINS t = pin) as Hvpin
    by (destruct t; vm_compute in Hpin; injection Hpin as <-; reflexivity).
  destruct (WORKER_URLS (level_of_tier t)) as [worker_url|] eqn:Hurl;
    [|destruct t; discriminate Hurl].
  exists (products aud_id ds 0 payload),
         (update_somenumbers_json (key_name (level_of_tier t) aud_id)
            (products aud_id ds 0 payload) loaded),
         worker_url.
  rewrite verifier_key_name_eq.
  split; [exact Hsnd|]. split; [exact Hfst|].
  assert (dict_get
            (update_somenumbers_json (key_name (level_of_tier t) aud_id)
               (products aud_id ds 0 payload) loaded)
            (key_name (level_of_tier t) aud_id)
          = Some (products aud_id ds 0 payload)) as Hget
    by (unfold update_somenumbers_json; apply dict_get_set_same).
  split; [exact Hget|]. split; [reflexivity|].
  unfold verify_tier. rewrite verifier_key_name_eq, Hget, Hvpin.
  rewrite (decode_products unicode_decimal payload aud_id pin ds Hp Ha Hn Hds).
  cbn [bind]. f_equal.
  destruct t; vm_compute in Hpay, Hurl;
    injection Hpay as <-; injection Hurl as <-; vm_compute; reflexivity.
Qed.

Lemma generated_code_verifies_witness :
  exists encoded_array written worker_url,
    snd (main_effect ascii_only
           {| arg_level := level_of_tier FULL; arg_aud := AUDIENCE_IDS FULL;
              arg_output := literal "somenumbers.json"; arg_dry_run := false |}
           Missing)
    = Object written
    /\ (no_surrogate (literal "somenumbers.json") ->
        fst (main_effect ascii_only
               {| arg_level := level_of_tier FULL; arg_aud := AUDIENCE_IDS FULL;
                  arg_output := literal "somenumbers.json"; arg_dry_run := false |}
               Missing)
        = Updated (literal "somenumbers.json")
            (verifier_key_name FULL (AUDIENCE_IDS FULL)) encoded_array)
    /\ dict_get written (verifier_key_name FULL (AUDIENCE_IDS FULL)) = Some encoded_array
    /\ WORKER_URLS (level_of_tier FULL) = Some worker_url
    /\ verify_tier ascii_only (fun _ => false) written FULL (AUDIENCE_IDS FULL)
       = Return
           (VERIFICATION true worker_url
              (expected_tier FULL ++ literal "@meam-firstlogin.internal") true).
Proof.
  apply (generated_code_verifies ascii_only (fun _ => false) FULL (AUDIENCE_IDS FULL)
           (literal "somenumbers.json") Missing).
  - vm_compute. discriminate.
  - unfold AUDIENCE_IDS. chars.
  - apply no_surrogate_existsb. vm_compute. reflexivity.
  - left. reflexivity.
Defined.

(** An audience id with the surrogate of an undecodable byte of the command
    line: the generator raises at line 130, and [main] exits with status 1
    and leaves the file as it was.  On a file that is not a JSON object a
    run that generated its array exits with status 1 as well. *)
Example scenario_surrogate :
  generate_firstlogin_array ascii_only 3 (literal "0123456789" ++ [0xDC80%N])
  = Raise UnicodeEncodeError
  /\ main_effect ascii_only
       {| arg_level := 3; arg_aud := literal "0123456789" ++ [0xDC80%N];
          arg_output := literal "somenumbers.json"; arg_dry_run := false |}
       (Object [(literal "somenumbers", [])])
     = (SystemExit 1, Object [(literal "somenumbers", [])])
  /\ main_effect ascii_only
       {| arg_level := 3; arg_aud := literal "0123456789";
          arg_output := literal "somenumbers.json"; arg_dry_run := false |}
       NotAnObject
     = (SystemExit 1, NotAnObject).
Proof. split; [|split]; vm_compute; reflexivity. Qed.

(** ** What a verification report says *)

(** X15: whenever the verifier reaches its three checks, the preamble is
    "MEAM" (its failure mark is never printed) and the URL field starts
    with "https://"; the mark of the email marker is that of equality with
    the marker of the tier; and the three values shown are the first three
    whitespace-separated fields of the decoded text. *)
Theorem verification_report (unicode_space : codepoint -> bool) (t : tier)
    (decoded_payload : decoded) (preamble_ok : bool) (worker_url email_marker : str)
    (email_ok : bool) :
  verify_format unicode_space t decoded_payload
  = VERIFICATION preamble_ok worker_url email_marker email_ok ->
  preamble_ok = true
  /\ startswith worker_url (literal "https://") = true
  /\ (email_ok = true
      <-> email_marker = expected_tier t ++ literal "@meam-firstlogin.internal")
  /\ exists s fields,
       decoded_payload = Joined s
       /\ split unicode_space s
          = literal "MEAM" :: worker_url :: email_marker :: fields.
Proof.
  intros H.
  destruct (verify_format_cases unicode_space t decoded_payload)
    as [E|[(s & _ & E)|(s & more & m & fields & Hd & _ & Hsplit & E)]];
    rewrite E in H; try discriminate H.
  injection H as <- <- <- <-.
  split; [reflexivity|].
  split; [apply startswith_app; exists more; reflexivity|].
  split; [apply str_eqb_eq|].
  exists s, fields. split; assumption.
Qed.

Lemma verification_report_witness :
  true = true
  /\ startswith (literal "https://x") (literal "https://") = true
  /\ (false = true
      <-> literal "tier3@y" = expected_tier FULL ++ literal "@meam-firstlogin.internal")
  /\ exists s fields,
       Joined (literal "MEAM https://x tier3@y") = Joined s
       /\ split (fun _ => false) s
          = literal "MEAM" :: literal "https://x" :: literal "tier3@y" :: fields.
Proof.
  apply (verification_report (fun _ => false) FULL
           (Joined (literal "MEAM https://x tier3@y")) true
           (literal "https://x") (literal "tier3@y") false).
  vm_compute. reflexivity.
Defined.

(** ** A passed verification *)

(** X16: under a non-empty audience id of valid, non-zero code points, when
    the check of a tier passes its email-marker check, the document holds
    under the key of the tier an array that is the encoding, under the PIN
    of the tier, of a printable text whose first three fields are "MEAM", a
    URL that starts with "https://", and the marker of the tier. *)
Theorem verified_means_encoded
    (unicode_decimal : codepoint -> option decimal_digit)
    (unicode_space : codepoint -> bool)
    (data : document) (t : tier) (aud_id : str)
    (preamble_ok : bool) (worker_url email_marker : str) :
  aud_id <> [] -> no_nul aud_id -> valid_str aud_id ->
  verify_tier unicode_decimal unicode_space data t aud_id
  = Return (VERIFICATION preamble_ok worker_url email_marker true) ->
  exists encoded_array s fields,
    dict_get data (verifier_key_name t aud_id) = Some encoded_array
    /\ printable s
    /\ encode_payload unicode_decimal s aud_id (verifier_BOOTSTRAP_PINS t)
       = Return encoded_array
    /\ split unicode_space s
       = literal "MEAM" :: worker_url
         :: (expected_tier t ++ literal "@meam-firstlogin.internal") :: fields
    /\ startswith worker_url (literal "https://") = true.
Proof.
  intros Ha Hn Hv H. unfold verify_tier in H.
  destruct (dict_get data (verifier_key_name t aud_id)) as [arr|] eqn:Hget;
    [|discriminate H].
  destruct (decode_payload unicode_decimal arr aud_id (verifier_BOOTSTRAP_PINS t))
    as [d|e] eqn:Hdec; [|discriminate H].
  cbn [bind] in H. injection H as H.
  destruct (verify_format_cases unicode_space t d)
    as [E|[(s & _ & E)|(s & more & m & fields & Hd & _ & Hsplit & E)]];
    rewrite E in H; try discriminate H.
  injection H as _ <- <- Hm. apply str_eqb_eq in Hm. subst m d.
  destruct (verifier_pin_digits unicode_decimal t) as (Hk & _).
  destruct (decode_payload_joined unicode_decimal arr aud_id _ s Ha Hn Hv Hk Hdec)
    as [Hp Henc].
  exists arr, s, fields.
  split; [reflexivity|]. split; [exact Hp|]. split; [exact Henc|].
  split; [exact Hsplit|]. apply startswith_app. exists more. reflexivity.
Qed.

Lemma verified_means_encoded_witness :
  exists encoded_array s fields,
    dict_get
      [(verifier_key_name BASIC (literal "abc"),
        products (literal "abc") [5; 1; 2; 9] 0 (literal "MEAM https://x tier1@meam-firstlogin.internal"))]
      (verifier_key_name BASIC (literal "abc"))
    = Some encoded_array
    /\ printable s
    /\ encode_payload ascii_only s (literal "abc") (verifier_BOOTSTRAP_PINS BASIC)
       = Return encoded_array
    /\ split (fun _ => false) s
       = literal "MEAM" :: literal "https://x"
         :: (expected_tier BASIC ++ literal "@meam-firstlogin.internal") :: fields
    /\ startswith (literal "https://x") (literal "https://") = true.
Proof.
  apply (verified_means_encoded ascii_only (fun _ => false) _ BASIC (literal "abc")
           true (literal "https://x") (literal "tier1@meam-firstlogin.internal"));
    [discriminate | chars | chars | vm_compute; reflexivity].
Defined.

(** ** The verifier's script *)

(** X17: on every document whose arrays under the three keys of the script
    have their elements below [2^1023] in magnitude, the script ends
    without an exception and reports on the three tiers, FULL, RESTRICTED,
    BASIC; the report of a tier is [KEY_NOT_FOUND] exactly when its key is
    missing from the document. *)
Theorem verify_script_reports
    (unicode_decimal : codepoint -> option decimal_digit)
    (unicode_space : codepoint -> bool) (data : document) :
  (forall t encoded_array,
      dict_get data (verifier_key_name t (AUDIENCE_IDS t)) = Some encoded_array ->
      Forall (fun x => Z.abs x < 2 ^ 1023) encoded_array) ->
  exists full restricted basic,
    verify_script unicode_decimal unicode_space data
    = Return [full; restricted; basic]
    /\ (full = KEY_NOT_FOUND
        <-> dict_get data (verifier_key_name FULL (AUDIENCE_IDS FULL)) = None)
    /\ (restricted = KEY_NOT_FOUND
        <-> dict_get data (verifier_key_name RESTRICTED (AUDIENCE_IDS RESTRICTED)) = None)
    /\ (basic = KEY_NOT_FOUND
        <-> dict_get data (verifier_key_name BASIC (AUDIENCE_IDS BASIC)) = None).
Proof.
  intros Hsmall.
  assert (forall t, AUDIENCE_IDS t <> [] /\ no_nul (AUDIENCE_IDS t)
                    /\ valid_str (AUDIENCE_IDS t)) as Haud.
  { intros t. destruct t; unfold AUDIENCE_IDS;
      (split; [discriminate|split; chars]). }
  assert (forall t, exists r,
            verify_tier unicode_decimal unicode_space data t (AUDIENCE_IDS t) = Return r
            /\ (r = KEY_NOT_FOUND
                <-> dict_get data (verifier_key_name t (AUDIENCE_IDS t)) = None))
    as Htier.
  { intros t. destruct (Haud t) as (Ha & Hn & Hv).
    apply verify_tier_reports; try assumption. apply Hsmall. }
  destruct (Htier FULL) as (full & Hf & Hfk).
  destruct (Htier RESTRICTED) as (restricted & Hr & Hrk).
  destruct (Htier BASIC) as (basic & Hb & Hbk).
  exists full, restricted, basic.
  split; [|split; [exact Hfk|split; [exact Hrk|exact Hbk]]].
  unfold verify_script. cbn [comprehension]. rewrite Hf, Hr, Hb. reflexivity.
Qed.

Lemma verify_script_reports_witness :
  exists full restricted basic,
    verify_script ascii_only (fun _ => false)
      [(literal "somenumbers", []);
       (verifier_key_name FULL (AUDIENCE_IDS FULL), [20405; 21114; 5])]
    = Return [full; restricted; basic]
    /\ (full = KEY_NOT_FOUND
        <-> dict_get
              [(literal "somenumbers", []);
               (verifier_key_name FULL (AUDIENCE_IDS FULL), [20405; 21114; 5])]
              (verifier_key_name FULL (AUDIENCE_IDS FULL)) = None)
    /\ (restricted = KEY_NOT_FOUND
        <-> dict_get
              [(literal "somenumbers", []);
               (verifier_key_name FULL (AUDIENCE_IDS FULL), [20405; 21114; 5])]
              (verifier_key_name RESTRICTED (AUDIENCE_IDS RESTRICTED)) = None)
    /\ (basic = KEY_NOT_FOUND
        <-> dict_get
              [(literal "somenumbers", []);
               (verifier_key_name FULL (AUDIENCE_IDS FULL), [20405; 21114; 5])]
              (verifier_key_name BASIC (AUDIENCE_IDS BASIC)) = None).
Proof.
  apply (verify_script_reports ascii_only (fun _ => false)).
  intros t arr H. destruct t; vm_compute in H; try discriminate H.
  injection H as <-.
  repeat first [apply Forall_nil | apply Forall_cons; [vm_compute; reflexivity|]].
Defined.
